(** * NPMTI weather fetcher: a shallow embedding of [fetch.py]

    The development follows the layout of [WeatherDataFetcher]:

    - [Py]       the Python values, exceptions and calendar arithmetic
                 the script relies on;
    - [Upstream] [fetch_api_data] under its [tenacity] retry decorator;
    - [Mongo]    the document-store operations it calls ([find_one] with a
                 sort, [update_one] with [$set] and [upsert=True]);
    - [get_latest_date_for_county], [fetch_and_store_data] and [run].

    Documents are finite maps from field names to values; a collection is
    a list of documents in natural (insertion) order, since [update_one]
    touches the first match only and nothing in the store forbids two
    documents under one key (the index the script creates is not
    unique).

    The model comes first, then the vocabulary of the statements and the
    example data, then the properties. *)

From Stdlib Require Import Qcanon Ascii String.
From stdpp Require Import base numbers option list strings gmap fin_maps.

Local Open Scope Z_scope.

(** * Part I: the model *)

(** ** Python side *)

Module Py.

(** [requests.exceptions.RequestException] and the subclasses the
    script can meet.  [HTTPError] is what [raise_for_status] raises,
    [JSONDecodeError] what [response.json()] raises (a
    [RequestException] since requests 2.27). *)
Inductive request_exception : Type :=
| ConnectionError
| Timeout
| TooManyRedirects
| HTTPError (status : Z)
| JSONDecodeError.

(** The exceptions of the model.  All of them derive from
    [Exception]. *)
Inductive exn : Type :=
| RequestException (e : request_exception)
| StopIteration
| KeyError (key : string)
| TypeError
| ValueError
| OverflowError
| WriteError
| DuplicateKeyError.

Inductive result (A : Type) : Type :=
| Ok (a : A)
| Raise (e : exn).
Arguments Ok {A} a.
Arguments Raise {A} e.

Definition bind {A B} (m : result A) (k : A → result B) : result B :=
  match m with
  | Ok a => k a
  | Raise e => Raise e
  end.

(** A [datetime]: the proleptic Gregorian ordinal of its date and the
    microsecond within that day. *)
Record datetime : Type := DateTime { dt_day : Z; dt_usec : Z }.

(** Field values: the scalars that JSON and BSON share, and the two
    BSON types the script stores or meets ([datetime], [ObjectId]).
    A number is kept by its exact value, which is what the store
    compares. *)
Inductive value : Type :=
| VNone
| VBool (b : bool)
| VNum (q : Qc)
| VStr (s : string)
| VDate (d : datetime)
| VOid (n : N).

(** Python truth value, as used by [all([...])] and [if x:]. *)
Definition truthy (v : value) : bool :=
  match v with
  | VNone => false
  | VBool b => b
  | VNum q => negb (bool_decide (q = 0%Qc))
  | VStr s => negb (bool_decide (s = ""%string))
  | VDate _ => true
  | VOid _ => true
  end.

(** *** Calendar, after [datetime.py] *)

Definition MINYEAR : Z := 1.
Definition MAXYEAR : Z := 9999.

(** [date.min.toordinal()] and [date.max.toordinal()]. *)
Definition MINORD : Z := 1.
Definition MAXORD : Z := 3652059.

Definition is_leap (y : Z) : bool :=
  (y mod 4 =? 0) && (negb (y mod 100 =? 0) || (y mod 400 =? 0)).

Definition days_before_year (y : Z) : Z :=
  let p := y - 1 in p * 365 + p / 4 - p / 100 + p / 400.

Definition days_in_month (y m : Z) : Z :=
  if m =? 2 then (if is_leap y then 29 else 28)
  else if (m =? 4) || (m =? 6) || (m =? 9) || (m =? 11) then 30
  else 31.

Definition days_before_month (y m : Z) : Z :=
  foldr (λ k acc, days_in_month y k + acc) 0 (seqZ 1 (m - 1)).

Definition valid_ymd (y m d : Z) : bool :=
  (MINYEAR <=? y) && (y <=? MAXYEAR) && (1 <=? m) && (m <=? 12)
  && (1 <=? d) && (d <=? days_in_month y m).

Definition ymd2ord (y m d : Z) : Z :=
  days_before_year y + days_before_month y m + d.

(** [timedelta(days=n)]: the constructor refuses magnitudes above
    999999999 days. *)
Definition timedelta_days (n : Z) : result Z :=
  if (-999999999 <=? n) && (n <=? 999999999) then Ok n
  else Raise OverflowError.

(** [d - timedelta(days=n)] on a date ordinal. *)
Definition date_sub (d n : Z) : result Z :=
  let r := d - n in
  if (MINORD <=? r) && (r <=? MAXORD) then Ok r else Raise OverflowError.

(** [dt - timedelta(days=n)] keeps the time of day. *)
Definition datetime_sub (dt : datetime) (n : Z) : result datetime :=
  bind (date_sub (dt_day dt) n) (λ r, Ok (DateTime r (dt_usec dt))).

(** [dt.date()] *)
Definition date_of (dt : datetime) : Z := dt_day dt.

End Py.

Export Py.

Global Instance result_ret : MRet result := @Ok.
Global Instance result_bind : MBind result := λ A B k m, Py.bind m k.

Global Instance datetime_eq_dec : EqDecision datetime.
Proof. solve_decision. Defined.

Global Instance value_eq_dec : EqDecision value.
Proof. solve_decision. Defined.

(** ** Upstream client *)

Module Upstream.

(** The part of the JSON body the script reads:
    [data['properties']['parameter'][code][date_str]], for bodies of the
    shape the API documents.  Objects keep their key order, which
    [next(iter(...))] and [.keys()] observe; their keys are distinct. *)
Definition table : Type := list (string * value).
Definition parameter_map : Type := list (string * table).

Record properties_obj : Type := Properties
  { parameter : option parameter_map }.

Record body : Type := Body
  { properties : option properties_obj }.

(** What one call of [requests.get(api_url)] yields: an exception
    raised by the transport, or a response with its status code and
    its body ([None] when the body is not valid JSON). *)
Inductive attempt : Type :=
| Raises (e : exn)
| Response (status_code : Z) (json : option body).

(** [response.raise_for_status()] *)
Definition raise_for_status (status_code : Z) : result unit :=
  if (400 <=? status_code) && (status_code <? 600)
  then Raise (RequestException (HTTPError status_code))
  else Ok tt.

(** The undecorated body of [fetch_api_data]. *)
Definition fetch_api_data_once (a : attempt) : result body :=
  match a with
  | Raises e => Raise e
  | Response status_code json =>
      _ ← raise_for_status status_code;
      match json with
      | Some data => Ok data
      | None => Raise (RequestException JSONDecodeError)
      end
  end.

(** [retry_if_exception_type(requests.exceptions.RequestException)] *)
Definition retry_if_exception_type (e : exn) : bool :=
  match e with
  | RequestException _ => true
  | _ => false
  end.

(** [stop_after_attempt(5)] *)
Definition max_attempt_number : nat := 5.

(** The [tenacity] loop.  [attempt_number] counts from 1 and [http n]
    is the outcome of the [n]-th call of [requests.get].  [left] is the
    number of attempts still allowed after this one, so that
    [stop_after_attempt] fires exactly when it is 0.  The result carries
    the number of the last attempt made.  With [reraise=True] the last
    exception is raised as it is; the waits between attempts take time
    and nothing else. *)
Fixpoint retrying (left : nat) (attempt_number : nat)
    (http : nat → attempt) : result body * nat :=
  match fetch_api_data_once (http attempt_number) with
  | Ok data => (Ok data, attempt_number)
  | Raise e =>
      if retry_if_exception_type e then
        match left with
        | O => (Raise e, attempt_number)
        | S left' => retrying left' (S attempt_number) http
        end
      else (Raise e, attempt_number)
  end.

(** [fetch_api_data] as decorated. *)
Definition fetch_api_data (http : nat → attempt) : result body * nat :=
  retrying (max_attempt_number - 1) 1%nat http.

End Upstream.

(** ** Document store *)

Module Mongo.

Abbreviation document := (gmap string value).
Abbreviation collection := (list (gmap string value)).

(** An equality condition [{k: v}] of a query: the field holds [v];
    a condition on [None] also selects documents without the field. *)
Definition field_matches (d : document) (k : string) (v : value) : bool :=
  match d !! k with
  | Some w => bool_decide (w = v)
  | None => bool_decide (v = VNone)
  end.

(** A query made of equality conditions only. *)
Definition matches (query : document) (d : document) : bool :=
  bool_decide (map_Forall (λ k v, field_matches d k v = true) query).

(** BSON comparison order on the values of a field, for [sort]:
    null (or no field) < numbers < strings < ObjectId < booleans <
    dates. *)
Definition bson_rank (v : option value) : Z :=
  match v with
  | None | Some VNone => 1
  | Some (VNum _) => 2
  | Some (VStr _) => 3
  | Some (VOid _) => 4
  | Some (VBool _) => 5
  | Some (VDate _) => 6
  end.

Definition bson_ltb (a b : option value) : bool :=
  if bson_rank a <? bson_rank b then true
  else if bson_rank b <? bson_rank a then false
  else match a, b with
       | Some (VNum p), Some (VNum q) => bool_decide (p < q)%Qc
       | Some (VStr s), Some (VStr t) => String.ltb s t
       | Some (VOid m), Some (VOid n) => (m <? n)%N
       | Some (VBool x), Some (VBool y) => negb x && y
       | Some (VDate x), Some (VDate y) =>
           (dt_day x <? dt_day y)
           || ((dt_day x =? dt_day y) && (dt_usec x <? dt_usec y))
       | _, _ => false
       end.

(** [find_one(query, sort=[(k, -1)])]: among the matching documents
    one whose [k] is greatest; of several such, the first in natural
    order.  [keep_greater] is what the scan does with the next
    document. *)
Definition keep_greater (query : document) (k : string)
    (best : option document) (d : document) : option document :=
  if matches query d then
    match best with
    | None => Some d
    | Some b => if bson_ltb (b !! k) (d !! k) then Some d else Some b
    end
  else best.

Definition find_one_desc (query : document) (k : string)
    (c : collection) : option document :=
  foldl (keep_greater query k) None c.

(** [find(query)] *)
Definition find (query : document → bool) (c : collection) : collection :=
  List.filter query c.

Definition oid_of (d : document) : N :=
  match d !! "_id" with
  | Some (VOid n) => n
  | _ => 0%N
  end.

(** The ObjectId given to an inserted document: one no document of
    the collection carries. *)
Definition fresh_oid (c : collection) : N :=
  N.succ (foldr (λ d acc, N.max (oid_of d) acc) 0%N c).

(** [update_one(query, {'$set': fields}, upsert=True)].

    The first matching document gets every field of [fields], its
    other fields stay ([fields ∪ d] takes [fields] first).  Without a
    match a document is inserted, made of the equality conditions of
    the query and of [fields], with a new [_id] unless [fields] names
    one.  [_id] cannot be changed on a stored document and is unique
    in the collection.

    The errors are those of the server.  What the driver refuses to
    encode is not modelled: a Python [int] that does not fit in 8
    bytes raises [OverflowError] before anything is sent, and a number
    of the model does not tell such an [int] from a [float] of the same
    value, which is stored. *)
Definition update_one (query fields : document) (c : collection)
    : result collection :=
  match list_find (λ d, matches query d = true) c with
  | Some (i, d) =>
      match fields !! "_id" with
      | Some v =>
          if bool_decide (d !! "_id" = Some v)
          then Ok (<[i := fields ∪ d]> c)
          else Raise WriteError
      | None => Ok (<[i := fields ∪ d]> c)
      end
  | None =>
      let d0 : document := fields ∪ query in
      match d0 !! "_id" with
      | Some v =>
          if bool_decide (Exists (λ d : document, d !! "_id" = Some v) c)
          then Raise DuplicateKeyError
          else Ok (c ++ [d0])
      | None => Ok (c ++ [<["_id" := VOid (fresh_oid c)]> d0])
      end
  end.

End Mongo.

Export Mongo.

(** ** The fetcher *)

(** The options of [config.yaml] the fetcher reads. *)
Record config : Type := Config
  { re_fetch_days : Z;
    test_mode : bool;
    test_counties : list value;
    parameters : list string }.

(** What identifies one request to the API: the fields the URL is built
    from. *)
Record request : Type := Request
  { rq_parameters : list string;
    rq_latitude : value;
    rq_longitude : value;
    rq_start : Z;
    rq_end : Z }.

(** The one message [fetch_and_store_data] logs for a county. *)
Inductive log_record : Type :=
| MissingData
| NoNewData
| Updated
| NoDataAvailable
| HTTPErrorOccurred (e : request_exception)
| UnexpectedError (e : exn).

Inductive level : Type := INFO | WARNING | ERROR.

(** [logging.info], [logging.warning], [logging.error] and
    [logging.exception] (which logs at ERROR). *)
Definition levelname (l : log_record) : level :=
  match l with
  | MissingData => WARNING
  | NoNewData => INFO
  | Updated => INFO
  | NoDataAvailable => WARNING
  | HTTPErrorOccurred _ => ERROR
  | UnexpectedError _ => ERROR
  end.

(** What a call of [fetch_and_store_data] leaves behind: its log
    message, the weather collection, and the request it sent with the
    number of attempts made (if it sent one). *)
Record outcome : Type := Outcome
  { logged : log_record;
    weather_after : collection;
    sent : option (request * nat) }.

(** [d.get(k)] on a document. *)
Definition get (d : document) (k : string) : value := default VNone (d !! k).

(** [d.get(k)] and [d[k]] on an object kept as an association list. *)
Fixpoint assoc {A} (k : string) (l : list (string * A)) : option A :=
  match l with
  | [] => None
  | (k', a) :: l' => if bool_decide (k' = k) then Some a else assoc k l'
  end.

(** [timedelta(days=5*365)] *)
Definition five_years : Z := 5 * 365.

Definition required_fields : list string :=
  ["county_name"; "state_name"; "fips_code"; "latitude"; "longitude"].

Section Fetcher.

(** [str.lower] and [datetime.strptime(_, '%Y%m%d')] ([None] where
    it raises [ValueError]) are library functions; the fetcher is
    verified for whatever they compute. *)
Variable lower : string → string.
Variable strptime : string → option datetime.

Variable cfg : config.

(** [datetime.today().date()], as an ordinal; one reading per call. *)
Variable today : Z.

(** The API: the outcome of the [n]-th call for a request. *)
Variable api : request → nat → Upstream.attempt.

Definition get_latest_date_for_county (weather : collection)
    (county : document) : result value :=
  match county !! "fips_code" with
  | None => Raise (KeyError "fips_code")
  | Some fips_code =>
      let county_filter : document := {[ "fips_code" := fips_code ]} in
      match find_one_desc county_filter "date" weather with
      | Some latest_record =>
          if bool_decide (latest_record = ∅) then Ok VNone
          else match latest_record !! "date" with
               | Some date => Ok date
               | None => Raise (KeyError "date")
               end
      | None => Ok VNone
      end
  end.

(** Lines 88 to 104: the window to fetch, [None] when start is after
    end. *)
Definition fetch_window (latest_date_in_db : value)
    : result (option (Z * Z)) :=
  start_date_dt ←
    (if truthy latest_date_in_db then
       days ← timedelta_days (re_fetch_days cfg);
       match latest_date_in_db with
       | VDate latest =>
           shifted ← datetime_sub latest days;
           let start_date_dt := date_of shifted in
           five_years_ago ← date_sub today five_years;
           mret (Z.max start_date_dt five_years_ago)
       | _ => Raise TypeError
       end
     else date_sub today five_years);
  end_date_dt ← date_sub today 1;
  if start_date_dt >? end_date_dt then mret None
  else mret (Some (start_date_dt, end_date_dt)).

(** Lines 127 to 141: the record of one date. *)
Definition base_record (county_name state_name fips_code latitude
    longitude : value) (date_dt : datetime) : document :=
  {[ "county_name" := county_name;
     "state_name" := state_name;
     "fips_code" := fips_code;
     "latitude" := latitude;
     "longitude" := longitude;
     "date" := VDate date_dt ]}.

Definition param_value (parameters_data : Upstream.parameter_map)
    (date_str : string) (param : string) : value :=
  match assoc param parameters_data with
  | Some param_data =>
      match param_data with
      | [] => VNone
      | _ :: _ =>
          match assoc date_str param_data with
          | Some v => v
          | None => VNone
          end
      end
  | None => VNone
  end.

Definition add_parameters (parameters_data : Upstream.parameter_map)
    (date_str : string) (record : document) : document :=
  foldl (λ record param,
           <[lower param := param_value parameters_data date_str param]> record)
        record (parameters cfg).

Definition make_record (county : document)
    (parameters_data : Upstream.parameter_map)
    (date_str : string) (date_dt : datetime) : document :=
  add_parameters parameters_data date_str
    (base_record (get county "county_name") (get county "state_name")
                 (get county "fips_code") (get county "latitude")
                 (get county "longitude") date_dt).

Definition filter_query (fips_code : value) (date_dt : datetime) : document :=
  {[ "fips_code" := fips_code; "date" := VDate date_dt ]}.

(** Lines 125 to 153: the loop over the dates.  An exception leaves
    the loop; what was written before it stays written. *)
Fixpoint store_dates (county : document)
    (parameters_data : Upstream.parameter_map) (dates : list string)
    (weather : collection) : collection * result unit :=
  match dates with
  | [] => (weather, Ok tt)
  | date_str :: dates' =>
      match strptime date_str with
      | None => (weather, Raise ValueError)
      | Some date_dt =>
          let record := make_record county parameters_data date_str date_dt in
          match update_one (filter_query (get county "fips_code") date_dt)
                           record weather with
          | Ok weather' => store_dates county parameters_data dates' weather'
          | Raise e => (weather, Raise e)
          end
      end
  end.

(** Lines 121 to 156, from the parsed body on. *)
Definition reconcile (county : document) (data : Upstream.body)
    (weather : collection) : collection * result log_record :=
  match Upstream.properties data with
  | Some props =>
      match Upstream.parameter props with
      | Some parameters_data =>
          match parameters_data with
          | [] => (weather, Raise StopIteration)
          | (_, first) :: _ =>
              let dates := first.*1 in
              let '(weather', r) :=
                store_dates county parameters_data dates weather in
              (weather', _ ← r; mret Updated)
          end
      | None => (weather, Ok NoDataAvailable)
      end
  | None => (weather, Ok NoDataAvailable)
  end.

(** The two [except] clauses. *)
Definition log_exception (e : exn) : log_record :=
  match e with
  | RequestException (HTTPError status) => HTTPErrorOccurred (HTTPError status)
  | _ => UnexpectedError e
  end.

Definition log_result (r : result log_record) : log_record :=
  match r with
  | Ok l => l
  | Raise e => log_exception e
  end.

Definition fetch_and_store_data (weather : collection) (county : document)
    : outcome :=
  if negb (forallb (λ k, truthy (get county k)) required_fields)
  then Outcome MissingData weather None
  else
    match (latest ← get_latest_date_for_county weather county;
           fetch_window latest) with
    | Raise e => Outcome (log_exception e) weather None
    | Ok None => Outcome NoNewData weather None
    | Ok (Some (start_date_dt, end_date_dt)) =>
        let rq := Request (parameters cfg) (get county "latitude")
                          (get county "longitude")
                          start_date_dt end_date_dt in
        let '(r, attempts) := Upstream.fetch_api_data (api rq) in
        match r with
        | Raise e => Outcome (log_exception e) weather (Some (rq, attempts))
        | Ok data =>
            let '(weather', l) := reconcile county data weather in
            Outcome (log_result l) weather' (Some (rq, attempts))
        end
    end.

(** [run]: the counties of the collection (those named by
    [test_counties] in test mode), each handled once.  The pool's
    workers are taken one after the other, in the order of
    submission; with several workers the calls may run in another
    order, which changes the order of the documents they insert.  The
    pool is taken to have a worker: with [max_workers] = 0 the executor
    raises [ValueError] and no county is handled. *)
Definition counties_to_process (county_collection : collection) : collection :=
  if test_mode cfg
  then find (λ c, existsb (field_matches c "fips_code") (test_counties cfg))
            county_collection
  else find (λ _, true) county_collection.

Fixpoint process (counties : collection) (weather : collection)
    : list outcome :=
  match counties with
  | [] => []
  | county :: counties' =>
      let o := fetch_and_store_data weather county in
      o :: process counties' (weather_after o)
  end.

Definition run (county_collection weather : collection) : list outcome :=
  process (counties_to_process county_collection) weather.

End Fetcher.

(** ** Library functions on the inputs the API produces

    Instances of [str.lower] and [strptime] for the examples: they
    compute what Python computes on ASCII strings and on strings of
    eight ASCII digits. *)

Module Instances.

Definition ascii_lower (a : ascii) : ascii :=
  let n := N_of_ascii a in
  if ((65 <=? n) && (n <=? 90))%N then ascii_of_N (n + 32) else a.

Fixpoint lower (s : string) : string :=
  match s with
  | EmptyString => EmptyString
  | String a s' => String (ascii_lower a) (lower s')
  end.

Definition digit (a : ascii) : option Z :=
  let n := Z.of_N (N_of_ascii a) in
  if (48 <=? n) && (n <=? 57) then Some (n - 48) else None.

Definition strptime (s : string) : option datetime :=
  match mapM digit (list_ascii_of_string s) with
  | Some [y1; y2; y3; y4; m1; m2; d1; d2] =>
      let y := 1000 * y1 + 100 * y2 + 10 * y3 + y4 in
      let m := 10 * m1 + m2 in
      let d := 10 * d1 + d2 in
      if valid_ymd y m d then Some (DateTime (ymd2ord y m d) 0) else None
  | _ => None
  end.

(** Midnight of a calendar day. *)
Definition midnight (y m d : Z) : datetime := DateTime (ymd2ord y m d) 0.

End Instances.

(** ** Start-up: [__init__] and [main]

    The settings are kept as the YAML file and the command line give
    them; nothing in the script checks their types. *)

Module Startup.

(** A value of [config.yaml]: a scalar or a list of scalars. *)
Inductive setting : Type :=
| Scalar (v : value)
| Items (l : list value).

(** Python truth value of a setting. *)
Definition truthy_setting (s : setting) : bool :=
  match s with
  | Scalar v => truthy v
  | Items [] => false
  | Items (_ :: _) => true
  end.

(** An [int]. *)
Definition int (z : Z) : value := VNum (Q2Qc (QArith_base.inject_Z z)).

(** The attributes [__init__] sets from the configuration. *)
Record fetcher : Type := Fetcher
  { mongodb_uri : setting;
    re_fetch_days : setting;
    test_mode : setting;
    test_counties : setting;
    parameters : setting;
    max_workers : setting }.

(** [Semaphore(value)]: a negative value is refused, a value that
    cannot be compared with 0 is a type error. *)
Definition semaphore (value : setting) : result unit :=
  match value with
  | Scalar (VNum q) =>
      if bool_decide (q < 0)%Qc then Raise ValueError else Ok tt
  | Scalar (VBool _) => Ok tt
  | _ => Raise TypeError
  end.

(** [os.getenv('MONGODB_URI', config.get('mongodb_uri'))] *)
Definition resolve_uri (getenv : option string)
    (config : gmap string setting) : setting :=
  match getenv with
  | Some s => Scalar (VStr s)
  | None => default (Scalar VNone) (config !! "mongodb_uri")
  end.

(** [__init__].  [getenv] is the value of [MONGODB_URI] in the
    environment, if it is set; [connect] stands for lines 39 to 46, the
    creation of the client and of the index, which may raise. *)
Definition init (getenv : option string) (connect : setting → result unit)
    (config : gmap string setting) : result fetcher :=
  let mongodb_uri := resolve_uri getenv config in
  if negb (truthy_setting mongodb_uri) then Raise ValueError
  else
    let self :=
      {| mongodb_uri := mongodb_uri;
         re_fetch_days := default (Scalar (int 7)) (config !! "re_fetch_days");
         test_mode := default (Scalar (VBool false)) (config !! "test_mode");
         test_counties := default (Items []) (config !! "test_counties");
         parameters := default (Items []) (config !! "parameters");
         max_workers := default (Scalar (int 5)) (config !! "max_workers") |} in
    _ ← connect mongodb_uri;
    _ ← semaphore (max_workers self);
    mret self.

(** The parsed command line. *)
Record args : Type := Args
  { config_path : string;
    test : bool;
    re_fetch_days_arg : option Z;
    max_workers_arg : option Z }.

(** Lines 203 to 209 of [main]: the command line overrides the
    file. *)
Definition override (a : args) (config : gmap string setting)
    : gmap string setting :=
  let config :=
    if test a then <["test_mode" := Scalar (VBool true)]> config else config in
  let config :=
    match re_fetch_days_arg a with
    | Some n => <["re_fetch_days" := Scalar (int n)]> config
    | None => config
    end in
  match max_workers_arg a with
  | Some n => <["max_workers" := Scalar (int n)]> config
  | None => config
  end.

(** [main] up to the call of [run]: [load] reads and parses the file
    named on the command line. *)
Definition main (load : string → result (gmap string setting))
    (getenv : option string) (connect : setting → result unit) (a : args)
    : result fetcher :=
  config ← load (config_path a);
  init getenv connect (override a config).

End Startup.

(** * Part II: the vocabulary of the statements *)

(** An attempt after which [tenacity] tries again (when attempts are
    left): it raised a [RequestException]. *)
Definition retried (a : Upstream.attempt) : Prop :=
  ∃ e, Upstream.fetch_api_data_once a = Raise (RequestException e).

(** [today] is a date from which five years can be taken. *)
Definition today_in_range (today : Z) : Prop :=
  MINORD + five_years ≤ today ≤ MAXORD.

Definition has_required_fields (county : document) : Prop :=
  forallb (λ k, truthy (get county k)) required_fields = true.

(** The request sent for a window. *)
Definition request_for (cfg : config) (county : document) (w : Z * Z)
    : request :=
  Request (parameters cfg) (get county "latitude") (get county "longitude")
          w.1 w.2.

(** [x] is not after [y]. *)
Definition date_le (x y : datetime) : Prop :=
  dt_day x < dt_day y ∨ (dt_day x = dt_day y ∧ dt_usec x ≤ dt_usec y).

(** [best] is what a scan for the greatest [k] holds after the
    documents [seen]: a matching document of [seen] that no date of a
    matching document of [seen] exceeds. *)
Definition greatest_so_far (query : document) (k : string)
    (best : option document) (seen : collection) : Prop :=
  (∀ b, best = Some b → b ∈ seen ∧ matches query b = true)
  ∧ (∀ d x, d ∈ seen → matches query d = true → d !! k = Some (VDate x) →
       ∃ b, best = Some b ∧ bson_ltb (b !! k) (Some (VDate x)) = false).

(** The fields a record has before its parameters are added. *)
Definition metadata : list string :=
  ["county_name"; "state_name"; "fips_code"; "latitude"; "longitude"; "date"].

(** The loop of [add_parameters], for any assignment of values. *)
Definition set_each (lower : string → string) (f : string → value)
    (params : list string) (record : document) : document :=
  foldl (λ record param, <[lower param := f param]> record) record params.

(** No value for [param] on [date_str] in the response: the code is
    not a key of the mapping, or the date is not a key of its table. *)
Definition no_value (parameters_data : Upstream.parameter_map)
    (param date_str : string) : Prop :=
  assoc param parameters_data = None
  ∨ ∃ param_data, assoc param parameters_data = Some param_data
                  ∧ assoc date_str param_data = None.

(** The pair a document is stored under; a missing field counts as
    [None], as it does for a query and for a unique index. *)
Definition key (d : document) : value * value :=
  (get d "fips_code", get d "date").

(** At most one document per pair. *)
Definition unique_keys (c : collection) : Prop := NoDup (key <$> c).

(** Field names a parameter must not lower-case to, for the record to
    keep the pair it is stored under and to leave [_id] alone. *)
Definition reserved : list string := ["fips_code"; "date"; "_id"].

(** ** The passes of the loop

    A pass of the loop of [store_dates] is given by a date string and
    what it parses to. *)

Module Pass.
Section Pass.

Variable lower : string → string.
Variable cfg : config.
Variable county : document.
Variable parameters_data : Upstream.parameter_map.

Definition record_of (call : string * datetime) : document :=
  make_record lower cfg county parameters_data call.1 call.2.

Definition query_of (call : string * datetime) : document :=
  filter_query (get county "fips_code") call.2.

Definition key_of (call : string * datetime) : value * value :=
  (get county "fips_code", VDate call.2).

(** What [update_one] makes of the collection when it succeeds. *)
Definition upsert (c : collection) (call : string * datetime) : collection :=
  match list_find (λ d, matches (query_of call) d = true) c with
  | Some (i, d) => <[i := record_of call ∪ d]> c
  | None =>
      c ++ [<["_id" := VOid (fresh_oid c)]> (record_of call ∪ query_of call)]
  end.

Definition upsert_all (c : collection) (calls : list (string * datetime))
    : collection :=
  foldl upsert c calls.

(** Where a pass finds its document, in a collection whose documents
    are stored under the pairs [keys]: at the first of its pair. *)
Definition position (keys : list (value * value)) (call : string * datetime)
    : option nat :=
  fst <$> list_find (λ k, k = key_of call) keys.

(** What a pass does to the document at index [i]. *)
Definition settle_at (keys : list (value * value)) (i : nat) (d : document)
    (call : string * datetime) : document :=
  if bool_decide (position keys call = Some i) then record_of call ∪ d else d.

Definition settle_all_at (keys : list (value * value))
    (calls : list (string * datetime)) (i : nat) (d : document) : document :=
  foldl (settle_at keys i) d calls.

End Pass.

(** The date strings the loop gets through, with what they parse to,
    and whether it gets through all of them. *)
Fixpoint parsed (strptime : string → option datetime) (dates : list string)
    : list (string * datetime) * bool :=
  match dates with
  | [] => ([], true)
  | date_str :: dates' =>
      match strptime date_str with
      | None => ([], false)
      | Some date_dt =>
          let '(calls, all) := parsed strptime dates' in
          ((date_str, date_dt) :: calls, all)
      end
  end.

End Pass.

(** ** Example data *)

Module Examples.

Definition num (z : Z) : value := VNum (Q2Qc (QArith_base.inject_Z z)).

Definition autauga : document :=
  {[ "county_name" := VStr "Autauga"; "state_name" := VStr "Alabama";
     "fips_code" := VStr "01001";
     "latitude" := num 32; "longitude" := num (-86) ]}.

(** A county on the equator. *)
Definition macapa : document :=
  {[ "county_name" := VStr "Macapa"; "state_name" := VStr "Amapa";
     "fips_code" := VStr "16003";
     "latitude" := num 0; "longitude" := num (-51) ]}.

Definition unnamed : document := <["county_name" := VStr ""]> autauga.

Definition cfg (re_fetch_days : Z) : config :=
  Config re_fetch_days false [] ["T2M"; "PRECTOTCORR"].

(** 15 June 2024. *)
Definition today : Z := 739052.

(** A stored record of Autauga for the day [day]. *)
Definition stored (day : Z) : document :=
  {[ "_id" := VOid 1; "fips_code" := VStr "01001";
     "date" := VDate (DateTime day 0) ]}.

(** The same with a field of an earlier parameter list. *)
Definition stored_with_wind (day : Z) : document :=
  <["ws2m" := num 3]> (stored day).

(** A record of another county. *)
Definition stored_elsewhere (day : Z) : document :=
  {[ "_id" := VOid 2; "fips_code" := VStr "16003";
     "date" := VDate (DateTime day 0) ]}.

Definition no_data : Upstream.body := Upstream.Body None.

Definition body_of (m : Upstream.parameter_map) : Upstream.body :=
  Upstream.Body (Some (Upstream.Properties (Some m))).

Definition empty_mapping : Upstream.body := body_of [].

(** Both parameters on 14 June 2024. *)
Definition one_day : Upstream.parameter_map :=
  [("T2M", [("20240614", num 25)]);
   ("PRECTOTCORR", [("20240614", num 2)])].


(** The second table lacks a date the first one has. *)
Definition two_days : Upstream.parameter_map :=
  [("PRECTOTCORR", [("20240613", num 1); ("20240614", num 2)]);
   ("T2M", [("20240614", num 25)])].

(** An API that answers every request with the same body. *)
Definition answers (data : Upstream.body) (rq : request) (n : nat)
    : Upstream.attempt :=
  Upstream.Response 200 (Some data).

(** A transport that answers 404 once and 200 afterwards. *)
Definition http_404_then_200 (n : nat) : Upstream.attempt :=
  match n with
  | 1%nat => Upstream.Response 404 None
  | _ => Upstream.Response 200 (Some no_data)
  end.

Definition fetcher (re_fetch_days : Z) (data : Upstream.body) :=
  fetch_and_store_data Instances.lower Instances.strptime
    (cfg re_fetch_days) today (answers data).

Definition reconciler :=
  reconcile Instances.lower Instances.strptime (cfg 7) autauga.

End Examples.

Ltac by_evaluation :=
  vm_compute; repeat split; try reflexivity; try discriminate.

Ltac by_decision :=
  apply (bool_decide_unpack _); vm_compute; exact I.

Ltac for_each_by_decision :=
  refine (proj1 (Forall_forall _ _) _); by_decision.

(** ** More vocabulary *)

(** [after] has every document of [before] at its place, with its
    [_id]: nothing was removed, moved or given another identity. *)
Definition keeps_documents (before after : collection) : Prop :=
  (length before ≤ length after)%nat
  ∧ ∀ i d, before !! i = Some d →
           ∃ d' : document, after !! i = Some d' ∧ d' !! "_id" = d !! "_id".

(** [e] is not an exception of [requests]. *)
Definition not_of_requests (e : exn) : Prop :=
  ∀ r, e ≠ RequestException r.

(** The collection a batch leaves: that of its last outcome. *)
Definition final_weather (weather : collection) (outcomes : list outcome)
    : collection :=
  default weather (last (weather_after <$> outcomes)).

(** ** More example data *)

Module Samples.

(** Autauga on 10 and on 14 June 2024. *)
Definition two_records : collection :=
  [ {[ "_id" := VOid 1; "fips_code" := VStr "01001";
       "date" := VDate (DateTime (Examples.today - 5) 0) ]};
    {[ "_id" := VOid 2; "fips_code" := VStr "01001";
       "date" := VDate (DateTime (Examples.today - 1) 0) ]} ].

(** A record of Autauga without a date. *)
Definition undated : document :=
  {[ "_id" := VOid 1; "fips_code" := VStr "01001" ]}.

(** A record of Autauga whose date is a string. *)
Definition string_dated : document :=
  {[ "_id" := VOid 1; "fips_code" := VStr "01001";
     "date" := VStr "2024-06-14" ]}.

(** An API that answers every request with the same status and no
    body. *)
Definition refuses (status_code : Z) (rq : request) (n : nat)
    : Upstream.attempt :=
  Upstream.Response status_code None.

(** A table with a key that is not a date between two that are. *)
Definition bad_key : Upstream.parameter_map :=
  [("T2M", [("20240613", Examples.num 24); ("2024-06-14", Examples.num 25);
            ("20240615", Examples.num 26)])].

(** Test mode, with Autauga as the only test county. *)
Definition test_cfg : config :=
  Config 7 true [VStr "01001"] ["T2M"; "PRECTOTCORR"].

Definition file : gmap string Startup.setting :=
  {[ "mongodb_uri" := Startup.Scalar (VStr "mongodb://localhost");
     "re_fetch_days" := Startup.Scalar (Startup.int 3);
     "parameters" := Startup.Items [VStr "T2M"] ]}.

Definition connects (uri : Startup.setting) : result unit := Ok tt.

Definition command_line : Startup.args :=
  Startup.Args "config.yaml" true (Some 0) None.

(** What [__init__] makes of the file alone, and of the file with the
    command line. *)
Definition started : Startup.fetcher :=
  Startup.Fetcher (Startup.Scalar (VStr "mongodb://localhost"))
    (Startup.Scalar (Startup.int 3)) (Startup.Scalar (VBool false))
    (Startup.Items []) (Startup.Items [VStr "T2M"])
    (Startup.Scalar (Startup.int 5)).

Definition started_in_test : Startup.fetcher :=
  Startup.Fetcher (Startup.Scalar (VStr "mongodb://localhost"))
    (Startup.Scalar (Startup.int 0)) (Startup.Scalar (VBool true))
    (Startup.Items []) (Startup.Items [VStr "T2M"])
    (Startup.Scalar (Startup.int 5)).

Definition loads (path : string) : result (gmap string Startup.setting) :=
  Ok file.

End Samples.

(** * Part III: properties *)

(** ** The library instances on sample inputs *)

Example ymd2ord_2024_03_01 : ymd2ord 2024 3 1 = 738946.
Proof. reflexivity. Qed.

Example ymd2ord_today : ymd2ord 2024 6 15 = Examples.today.
Proof. reflexivity. Qed.

Example ymd2ord_max : ymd2ord 9999 12 31 = MAXORD.
Proof. reflexivity. Qed.

Example lower_T2M : Instances.lower "T2M_MAX" = "t2m_max"%string.
Proof. reflexivity. Qed.

Example strptime_20230615 :
  Instances.strptime "20230615" = Some (Instances.midnight 2023 6 15).
Proof. reflexivity. Qed.

Example strptime_20230230 : Instances.strptime "20230230" = None.
Proof. reflexivity. Qed.

(** ** The retry policy *)

Section Retry.
Import Upstream.

Lemma raise_for_status_error status_code :
  400 ≤ status_code < 600 →
  raise_for_status status_code
  = Raise (RequestException (HTTPError status_code)).
Proof.
  intros [Hlo Hhi]. unfold raise_for_status.
  apply Z.leb_le in Hlo. apply Z.ltb_lt in Hhi. by rewrite Hlo, Hhi.
Qed.

Lemma http_error_retried status_code json :
  400 ≤ status_code < 600 → retried (Response status_code json).
Proof.
  intros H. exists (HTTPError status_code). simpl.
  by rewrite raise_for_status_error.
Qed.

Lemma retry_if_exception_type_true e :
  retry_if_exception_type e = true → ∃ r, e = RequestException r.
Proof. destruct e; simpl; try discriminate. eauto. Qed.

(** The loop started at attempt [n] with [left] further attempts
    allowed ends at some attempt [m] in [n .. n + left]; every attempt
    before [m] raised a [RequestException]; the result is that of
    attempt [m]; and it ends early only on a result that is not
    retried. *)
Lemma retrying_spec left : ∀ n http r m,
  retrying left n http = (r, m) →
  (n ≤ m ≤ n + left)%nat
  ∧ r = fetch_api_data_once (http m)
  ∧ (∀ k, (n ≤ k < m)%nat → retried (http k))
  ∧ ((m < n + left)%nat → ∀ e, r = Raise e → retry_if_exception_type e = false).
Proof.
  induction left as [|left IH]; intros n http r m; simpl.
  - destruct (fetch_api_data_once (http n)) as [data|e] eqn:E.
    + intros [= <- <-]. repeat split; try lia. done.
    + destruct (retry_if_exception_type e) eqn:Er; intros [= <- <-];
        repeat split; try lia; done.
  - destruct (fetch_api_data_once (http n)) as [data|e] eqn:E.
    + intros [= <- <-]. repeat split; try lia; try done.
    + destruct (retry_if_exception_type e) eqn:Er.
      * intros H. apply IH in H as (Hm & Hr & Hk & Hstop).
        split; [lia|]. split; [done|]. split.
        -- intros k Hk'. destruct (decide (k = n)) as [->|Hne].
           ++ apply retry_if_exception_type_true in Er as [x ->]. by exists x.
           ++ apply Hk. lia.
        -- intros Hlt. apply Hstop. lia.
      * intros [= <- <-]. repeat split; try lia; try done.
        intros _ e' [= <-]. done.
Qed.

End Retry.

(** C1, as stated, fails: the first attempt gets a 404 (a 4xx client
    error), and [fetch_api_data] makes a second attempt and returns its
    body instead of raising the [HTTPError] of the first. *)
Lemma fetch_api_data_retries_404 :
  Upstream.fetch_api_data_once (Examples.http_404_then_200 1)
  = Raise (RequestException (HTTPError 404))
  ∧ Upstream.fetch_api_data Examples.http_404_then_200
    = (Ok Examples.no_data, 2%nat).
Proof. split; reflexivity. Qed.

(** C1, amended: [fetch_api_data] makes between 1 and 5 attempts; every
    attempt before the last raised a [requests] [RequestException]
    (a connection error, a timeout, or the [HTTPError] of a 4xx or 5xx
    status alike); what it returns or raises is the outcome of the last
    attempt; it stops before the fifth attempt only on a body or on an
    exception that is not a [RequestException]; in particular an attempt
    answered by a 4xx or 5xx status is the last one only if it is the
    fifth. *)
Theorem fetch_api_data_policy (http : nat → Upstream.attempt) r n :
  Upstream.fetch_api_data http = (r, n) →
  (1 ≤ n ≤ 5)%nat
  ∧ r = Upstream.fetch_api_data_once (http n)
  ∧ (∀ k, (1 ≤ k < n)%nat → retried (http k))
  ∧ ((n < 5)%nat → ∀ e, r = Raise e → Upstream.retry_if_exception_type e = false)
  ∧ (∀ status_code json,
       http n = Upstream.Response status_code json →
       400 ≤ status_code < 600 → n = 5%nat).
Proof.
  intros H. apply retrying_spec in H as (Hn & Hr & Hk & Hstop).
  unfold Upstream.max_attempt_number in *. simpl in Hn, Hstop.
  split; [lia|]. split; [done|]. split; [done|]. split; [done|].
  intros status_code json Hhttp Hs.
  destruct (decide (n = 5%nat)) as [|Hne]; [done|exfalso].
  assert (n < 5)%nat as Hlt by lia.
  destruct (http_error_retried status_code json Hs) as [e He].
  rewrite <- Hhttp, <- Hr in He.
  specialize (Hstop Hlt _ He). discriminate.
Qed.

Lemma fetch_api_data_policy_witness :
  (1 ≤ 2 ≤ 5)%nat
  ∧ Ok Examples.no_data
    = Upstream.fetch_api_data_once (Examples.http_404_then_200 2)
  ∧ (∀ k, (1 ≤ k < 2)%nat → retried (Examples.http_404_then_200 k))
  ∧ ((2 < 5)%nat → ∀ e, Ok Examples.no_data = Raise e →
       Upstream.retry_if_exception_type e = false)
  ∧ (∀ status_code json,
       Examples.http_404_then_200 2 = Upstream.Response status_code json →
       400 ≤ status_code < 600 → 2%nat = 5%nat).
Proof.
  apply (fetch_api_data_policy Examples.http_404_then_200). reflexivity.
Defined.

(** ** The fetch window *)

Section Window.

Variable cfg : config.
Variable today : Z.

Lemma timedelta_days_ok n :
  -999999999 ≤ n ≤ 999999999 → timedelta_days n = Ok n.
Proof.
  intros [Hlo Hhi]. unfold timedelta_days.
  apply Z.leb_le in Hlo. apply Z.leb_le in Hhi. by rewrite Hlo, Hhi.
Qed.

Lemma date_sub_ok d n :
  MINORD ≤ d - n ≤ MAXORD → date_sub d n = Ok (d - n).
Proof.
  intros [Hlo Hhi]. unfold date_sub.
  apply Z.leb_le in Hlo. apply Z.leb_le in Hhi. by rewrite Hlo, Hhi.
Qed.

Lemma five_years_ago_ok :
  today_in_range today → date_sub today five_years = Ok (today - five_years).
Proof.
  unfold today_in_range, five_years, MINORD, MAXORD. intros H.
  apply date_sub_ok. unfold MINORD, MAXORD. lia.
Qed.

Lemma yesterday_ok :
  today_in_range today → date_sub today 1 = Ok (today - 1).
Proof.
  unfold today_in_range, five_years, MINORD, MAXORD. intros H.
  apply date_sub_ok. unfold MINORD, MAXORD. lia.
Qed.

(** The window when the collection holds a latest date. *)
Lemma fetch_window_latest (latest : datetime) :
  today_in_range today →
  -999999999 ≤ re_fetch_days cfg ≤ 999999999 →
  MINORD ≤ dt_day latest - re_fetch_days cfg ≤ MAXORD →
  fetch_window cfg today (VDate latest)
  = Ok (let start := Z.max (dt_day latest - re_fetch_days cfg)
                           (today - five_years) in
        if start >? today - 1 then None else Some (start, today - 1)).
Proof.
  intros Ht Hr HL. unfold fetch_window. simpl.
  rewrite (timedelta_days_ok _ Hr). simpl.
  unfold datetime_sub. rewrite (date_sub_ok _ _ HL). simpl.
  rewrite (five_years_ago_ok Ht). simpl.
  rewrite (yesterday_ok Ht). simpl.
  by destruct (_ >? _).
Qed.

(** The window when it holds none. *)
Lemma fetch_window_no_latest (latest_date_in_db : value) :
  today_in_range today →
  truthy latest_date_in_db = false →
  fetch_window cfg today latest_date_in_db
  = Ok (Some (today - five_years, today - 1)).
Proof.
  intros Ht Hv. unfold fetch_window. rewrite Hv.
  rewrite (five_years_ago_ok Ht). simpl.
  rewrite (yesterday_ok Ht). simpl.
  destruct (_ >? _) eqn:E; [|done].
  apply Z.gtb_lt in E. unfold five_years in E. lia.
Qed.

End Window.

(** ** The paths through [fetch_and_store_data] *)

Section Paths.

Variable lower : string → string.
Variable strptime : string → option datetime.
Variable cfg : config.
Variable today : Z.
Variable api : request → nat → Upstream.attempt.

Lemma missing_field_skipped weather county k :
  k ∈ required_fields →
  truthy (get county k) = false →
  fetch_and_store_data lower strptime cfg today api weather county
  = Outcome MissingData weather None.
Proof.
  intros Hk Hf. unfold fetch_and_store_data.
  destruct (forallb _ required_fields) eqn:E; [|done].
  rewrite forallb_forall in E. apply list_elem_of_In in Hk.
  specialize (E _ Hk). simpl in E. congruence.
Qed.

Lemma empty_window_skipped weather county latest :
  has_required_fields county →
  get_latest_date_for_county weather county = Ok latest →
  fetch_window cfg today latest = Ok None →
  fetch_and_store_data lower strptime cfg today api weather county
  = Outcome NoNewData weather None.
Proof.
  intros Hreq Hl Hw. unfold fetch_and_store_data.
  rewrite Hreq, Hl. simpl. by rewrite Hw.
Qed.

Lemma window_fetched weather county latest w :
  has_required_fields county →
  get_latest_date_for_county weather county = Ok latest →
  fetch_window cfg today latest = Ok (Some w) →
  fetch_and_store_data lower strptime cfg today api weather county
  = let rq := request_for cfg county w in
    let attempts := (Upstream.fetch_api_data (api rq)).2 in
    match (Upstream.fetch_api_data (api rq)).1 with
    | Raise e => Outcome (log_exception e) weather (Some (rq, attempts))
    | Ok data =>
        let r := reconcile lower strptime cfg county data weather in
        Outcome (log_result r.2) r.1 (Some (rq, attempts))
    end.
Proof.
  intros Hreq Hl Hw. unfold fetch_and_store_data.
  rewrite Hreq, Hl. simpl. rewrite Hw. destruct w as [s e]. simpl.
  unfold request_for. simpl.
  destruct (Upstream.fetch_api_data _) as [[data|x] n]; simpl; [|done].
  by destruct (reconcile _ _ _ _ _ _).
Qed.

Lemma window_sent weather county latest w :
  has_required_fields county →
  get_latest_date_for_county weather county = Ok latest →
  fetch_window cfg today latest = Ok (Some w) →
  ∃ attempts,
    sent (fetch_and_store_data lower strptime cfg today api weather county)
    = Some (request_for cfg county w, attempts).
Proof.
  intros Hreq Hl Hw. rewrite (window_fetched _ _ _ _ Hreq Hl Hw). simpl.
  destruct (Upstream.fetch_api_data _) as [[data|x] n]; simpl; eauto.
Qed.

(** A failure of the request is logged for the county and nothing is
    written. *)
Lemma fetch_failure_logged weather county latest w e attempts :
  has_required_fields county →
  get_latest_date_for_county weather county = Ok latest →
  fetch_window cfg today latest = Ok (Some w) →
  Upstream.fetch_api_data (api (request_for cfg county w)) = (Raise e, attempts) →
  fetch_and_store_data lower strptime cfg today api weather county
  = Outcome (log_exception e) weather (Some (request_for cfg county w, attempts))
  ∧ levelname (log_exception e) = ERROR.
Proof.
  intros Hreq Hl Hw Hf. rewrite (window_fetched _ _ _ _ Hreq Hl Hw). simpl.
  rewrite Hf. simpl. split; [done|]. by destruct e as [[]| | | | | | |].
Qed.

Lemma required_field_present county k :
  k ∈ required_fields → has_required_fields county →
  county !! k = Some (get county k) ∧ truthy (get county k) = true.
Proof.
  intros Hk Hreq. unfold has_required_fields in Hreq.
  rewrite forallb_forall in Hreq. apply list_elem_of_In in Hk.
  specialize (Hreq _ Hk). simpl in Hreq. split; [|done].
  unfold get in *. by destruct (county !! k).
Qed.

Lemma find_one_desc_no_match query k (c : collection) :
  (∀ d, d ∈ c → matches query d = false) →
  find_one_desc query k c = None.
Proof.
  unfold find_one_desc. generalize (@None document).
  induction c as [|d c IH]; intros best H; simpl; [done|].
  unfold keep_greater at 2. rewrite (H d) by apply list_elem_of_here.
  apply IH. intros d' Hd'. apply H. by apply list_elem_of_further.
Qed.

Lemma get_latest_no_record weather county :
  has_required_fields county →
  (∀ d, d ∈ weather →
        matches {[ "fips_code" := get county "fips_code" ]} d = false) →
  get_latest_date_for_county weather county = Ok VNone.
Proof.
  intros Hreq Hno. unfold get_latest_date_for_county.
  destruct (required_field_present county "fips_code") as [-> _];
    [set_solver|done|].
  by rewrite find_one_desc_no_match.
Qed.

End Paths.

(** ** The latest stored date *)

Section Latest.

Variable query : document.
Variable k : string.

Lemma bson_ltb_date_false v x y :
  bson_ltb v (Some (VDate x)) = false →
  bson_ltb v (Some (VDate y)) = true →
  bson_ltb (Some (VDate y)) (Some (VDate x)) = false.
Proof.
  destruct v as [[| | | |z|]|]; try discriminate.
  unfold bson_ltb. simpl. intros H1 H2.
  apply orb_false_iff in H1 as [H1 H1'].
  apply Z.ltb_ge in H1.
  apply orb_true_iff in H2 as [H2|H2].
  - apply Z.ltb_lt in H2. apply orb_false_iff. split.
    + apply Z.ltb_ge. lia.
    + apply andb_false_iff. left. apply Z.eqb_neq. lia.
  - apply andb_true_iff in H2 as [H2 H2'].
    apply Z.eqb_eq in H2. apply Z.ltb_lt in H2'.
    apply andb_false_iff in H1' as [H1'|H1'].
    + apply Z.eqb_neq in H1'. apply orb_false_iff. split.
      * apply Z.ltb_ge. lia.
      * apply andb_false_iff. left. apply Z.eqb_neq. lia.
    + apply Z.ltb_ge in H1'. apply orb_false_iff. split.
      * apply Z.ltb_ge. lia.
      * apply andb_false_iff.
        destruct (decide (dt_day y = dt_day x)) as [E|E].
        -- right. apply Z.ltb_ge. lia.
        -- left. by apply Z.eqb_neq.
Qed.

Lemma bson_ltb_lower v w x :
  bson_ltb v (Some (VDate x)) = false →
  bson_ltb v w = true →
  bson_ltb w (Some (VDate x)) = false.
Proof.
  intros H1 H2.
  destruct w as [[| | | |y|]|];
    try (destruct v as [[| | | |z|]|]; discriminate).
  by eapply bson_ltb_date_false.
Qed.

Lemma bson_ltb_irrefl_date x :
  bson_ltb (Some (VDate x)) (Some (VDate x)) = false.
Proof.
  unfold bson_ltb. simpl. rewrite !Z.ltb_irrefl. by rewrite andb_false_r.
Qed.

Lemma bson_ltb_date_le x y :
  bson_ltb (Some (VDate y)) (Some (VDate x)) = false → date_le x y.
Proof.
  unfold bson_ltb, date_le. simpl. intros H.
  apply orb_false_iff in H as [H1 H2]. apply Z.ltb_ge in H1.
  apply andb_false_iff in H2 as [H2|H2].
  - apply Z.eqb_neq in H2. left. lia.
  - apply Z.ltb_ge in H2. lia.
Qed.

Lemma greatest_so_far_step best seen d :
  greatest_so_far query k best seen →
  greatest_so_far query k (keep_greater query k best d) (seen ++ [d]).
Proof.
  intros [Hm Hb]. unfold keep_greater.
  assert (∀ d' : document, d' ∈ seen ++ [d] → d' ∈ seen ∨ d' = d) as Hsplit.
  { intros d' [?|?%list_elem_of_singleton]%elem_of_app; auto. }
  assert (d ∈ seen ++ [d]) as Hlast.
  { apply elem_of_app. right. apply list_elem_of_here. }
  assert (∀ b, best = Some b → b ∈ seen ++ [d] ∧ matches query b = true)
    as Hm'.
  { intros b Hbest. destruct (Hm b Hbest). split; [|done].
    apply elem_of_app. by left. }
  destruct (matches query d) eqn:Hd.
  - destruct best as [b|].
    + destruct (bson_ltb (b !! k) (d !! k)) eqn:Hlt.
      * split; [by intros ? [= <-]|].
        intros d' x Hin Hd' Hx. exists d. split; [done|].
        destruct (Hsplit d' Hin) as [Hin'| ->].
        -- destruct (Hb d' x Hin' Hd' Hx) as (b' & [= <-] & Hle).
           by eapply bson_ltb_lower.
        -- rewrite Hx. apply bson_ltb_irrefl_date.
      * split; [done|].
        intros d' x Hin Hd' Hx.
        destruct (Hsplit d' Hin) as [Hin'| ->];
          [exact (Hb d' x Hin' Hd' Hx)|].
        exists b. split; [done|]. by rewrite <- Hx.
    + split; [by intros ? [= <-]|].
      intros d' x Hin Hd' Hx.
      destruct (Hsplit d' Hin) as [Hin'| ->].
      * by destruct (Hb d' x Hin' Hd' Hx) as (? & ? & _).
      * exists d. split; [done|]. rewrite Hx. apply bson_ltb_irrefl_date.
  - split; [done|].
    intros d' x Hin Hd' Hx.
    destruct (Hsplit d' Hin) as [Hin'| ->];
      [exact (Hb d' x Hin' Hd' Hx)|congruence].
Qed.

Lemma greatest_so_far_foldl c : ∀ best seen,
  greatest_so_far query k best seen →
  greatest_so_far query k (foldl (keep_greater query k) best c) (seen ++ c).
Proof.
  induction c as [|d c IH]; intros best seen H; simpl.
  - by rewrite app_nil_r.
  - rewrite (cons_middle d seen c), app_assoc. apply IH.
    by apply greatest_so_far_step.
Qed.

Lemma find_one_desc_greatest c :
  greatest_so_far query k (find_one_desc query k c) c.
Proof.
  apply (greatest_so_far_foldl c None []). split; [done|].
  by intros ?? ?%elem_of_nil.
Qed.

End Latest.

Lemma matches_fips_code fips_code d :
  matches {[ "fips_code" := fips_code ]} d = true
  ↔ get d "fips_code" = fips_code.
Proof.
  unfold matches. rewrite bool_decide_eq_true, map_Forall_singleton.
  unfold field_matches, get. destruct (d !! "fips_code"); simpl;
    rewrite bool_decide_eq_true; [|done]. split; congruence.
Qed.

(** When [get_latest_date_for_county] returns a date, a document of
    the county is stored under that date and none under a later
    one. *)
Lemma get_latest_is_latest weather county latest :
  get_latest_date_for_county weather county = Ok (VDate latest) →
  (∃ b, b ∈ weather
        ∧ get b "fips_code" = get county "fips_code"
        ∧ b !! "date" = Some (VDate latest))
  ∧ ∀ d x, d ∈ weather →
           get d "fips_code" = get county "fips_code" →
           d !! "date" = Some (VDate x) →
           date_le x latest.
Proof.
  unfold get_latest_date_for_county.
  destruct (county !! "fips_code") as [fips_code|] eqn:Hf; [|done].
  assert (get county "fips_code" = fips_code) as -> by (unfold get; by rewrite Hf).
  destruct (find_one_desc_greatest {[ "fips_code" := fips_code ]} "date" weather)
    as [Hm Hb].
  destruct (find_one_desc _ _ weather) as [b|]; [|done].
  destruct (Hm b eq_refl) as [Hin Hmb].
  case_bool_decide; [done|].
  destruct (b !! "date") as [date|] eqn:Hdate; [|done].
  intros [= ->]. split.
  - exists b. split; [done|]. split; [|done]. by apply matches_fips_code.
  - intros d x Hd Hfd Hx.
    destruct (Hb d x Hd (proj2 (matches_fips_code _ _) Hfd) Hx)
      as (b' & [= <-] & Hle).
    rewrite Hdate in Hle. by apply bson_ltb_date_le.
Qed.

(** ** Claims on the window and on the skips *)

Section WindowClaims.

Variable lower : string → string.
Variable strptime : string → option datetime.
Variable cfg : config.
Variable today : Z.
Variable api : request → nat → Upstream.attempt.

(** C2, amended: an entity whose latest stored date is yesterday, with
    [re_fetch_days] = 0, gets the window of the single day yesterday,
    and that day is fetched; when its latest stored date is today or
    later the start is after the end: nothing is fetched, nothing is
    written, and the skip is logged at INFO. *)
Theorem window_of_latest_yesterday weather county latest :
  has_required_fields county →
  today_in_range today →
  re_fetch_days cfg = 0 →
  get_latest_date_for_county weather county = Ok (VDate latest) →
  (dt_day latest = today - 1 →
     fetch_window cfg today (VDate latest) = Ok (Some (today - 1, today - 1))
     ∧ ∃ attempts,
         sent (fetch_and_store_data lower strptime cfg today api weather county)
         = Some (request_for cfg county (today - 1, today - 1), attempts))
  ∧ (today ≤ dt_day latest ≤ MAXORD →
     fetch_window cfg today (VDate latest) = Ok None
     ∧ fetch_and_store_data lower strptime cfg today api weather county
       = Outcome NoNewData weather None
     ∧ levelname NoNewData = INFO).
Proof.
  intros Hreq Ht Hr Hl.
  assert (Ht' := Ht). unfold today_in_range, five_years, MINORD, MAXORD in Ht'.
  split.
  - intros Hy.
    assert (fetch_window cfg today (VDate latest)
            = Ok (Some (today - 1, today - 1))) as Hw.
    { rewrite fetch_window_latest; rewrite ?Hr, ?Hy;
        unfold MINORD, MAXORD; try lia; try done.
      simpl. unfold five_years.
      replace (Z.max (today - 1 - 0) (today - 5 * 365)) with (today - 1) by lia.
      by rewrite Z.gtb_ltb, Z.ltb_irrefl. }
    split; [done|]. by eapply window_sent.
  - intros HL.
    assert (fetch_window cfg today (VDate latest) = Ok None) as Hw.
    { rewrite fetch_window_latest; rewrite ?Hr;
        unfold MINORD, MAXORD in *; try lia; try done.
      simpl. unfold five_years.
      destruct (_ >? _) eqn:E; [done|].
      rewrite Z.gtb_ltb in E. apply Z.ltb_ge in E. lia. }
    split; [done|]. split; [|done]. by eapply empty_window_skipped.
Qed.

(** C5, amended: for an entity with a latest stored date [L] the
    window is [max(L − re_fetch_days, today − 1825 days) .. today − 1],
    1825 being [5 * 365], which is what the request asks for (nothing
    is asked when the start is after the end); with [L] 10 days ago and
    [re_fetch_days] = 7 it starts 17 days ago and ends yesterday. *)
Theorem window_of_latest weather county latest :
  has_required_fields county →
  today_in_range today →
  -999999999 ≤ re_fetch_days cfg ≤ 999999999 →
  MINORD ≤ dt_day latest - re_fetch_days cfg ≤ MAXORD →
  get_latest_date_for_county weather county = Ok (VDate latest) →
  let start := Z.max (dt_day latest - re_fetch_days cfg) (today - five_years) in
  let end_ := today - 1 in
  fetch_window cfg today (VDate latest)
  = Ok (if start >? end_ then None else Some (start, end_))
  ∧ (start ≤ end_ →
     ∃ attempts,
       sent (fetch_and_store_data lower strptime cfg today api weather county)
       = Some (request_for cfg county (start, end_), attempts))
  ∧ (dt_day latest = today - 10 → re_fetch_days cfg = 7 →
     start = today - 17 ∧ end_ = today - 1
     ∧ fetch_window cfg today (VDate latest)
       = Ok (Some (today - 17, today - 1))).
Proof.
  intros Hreq Ht Hr HL Hl start end_.
  assert (fetch_window cfg today (VDate latest)
          = Ok (if start >? end_ then None else Some (start, end_))) as Hw.
  { by rewrite fetch_window_latest. }
  split; [done|]. split.
  - intros Hse. eapply window_sent; [done..|].
    rewrite Hw. destruct (start >? end_) eqn:E; [|done].
    apply Z.gtb_lt in E. lia.
  - intros H10 H7.
    assert (start = today - 17) as Hs.
    { unfold start, five_years. rewrite H10, H7. lia. }
    split; [done|]. split; [done|].
    rewrite Hw. destruct (start >? end_) eqn:E.
    + apply Z.gtb_lt in E. unfold end_ in E. lia.
    + by rewrite Hs.
Qed.

(** C6, amended: for an entity with no stored record the window
    starts [5 * 365] = 1825 days before today, whatever
    [re_fetch_days] is, and ends yesterday; that window is
    requested. *)
Theorem window_without_prior_data weather county :
  has_required_fields county →
  today_in_range today →
  (∀ d, d ∈ weather →
        matches {[ "fips_code" := get county "fips_code" ]} d = false) →
  (latest ← get_latest_date_for_county weather county;
   fetch_window cfg today latest)
  = Ok (Some (today - 1825, today - 1))
  ∧ ∃ attempts,
      sent (fetch_and_store_data lower strptime cfg today api weather county)
      = Some (request_for cfg county (today - 1825, today - 1), attempts).
Proof.
  intros Hreq Ht Hno.
  pose proof (get_latest_no_record _ _ Hreq Hno) as Hl.
  pose proof (fetch_window_no_latest cfg today VNone Ht eq_refl) as Hw.
  change (today - five_years) with (today - 1825) in Hw.
  split.
  - rewrite Hl. simpl. exact Hw.
  - by eapply window_sent.
Qed.

(** C9: a county one of whose required fields is there but falsy (a
    latitude of 0, an empty name) is skipped with a warning, without a
    request and without a write, as the same county without that
    field is. *)
Theorem falsy_required_field_skipped weather county k :
  k ∈ required_fields →
  is_Some (county !! k) →
  truthy (get county k) = false →
  let o := fetch_and_store_data lower strptime cfg today api weather county in
  logged o = MissingData
  ∧ levelname (logged o) = WARNING
  ∧ sent o = None
  ∧ weather_after o = weather
  ∧ o = fetch_and_store_data lower strptime cfg today api weather
          (delete k county).
Proof.
  intros Hk _ Hf o. unfold o.
  rewrite (missing_field_skipped _ _ _ _ _ _ _ k Hk Hf).
  rewrite (missing_field_skipped _ _ _ _ _ _ (delete k county) k Hk).
  - done.
  - unfold get. by rewrite lookup_delete_eq.
Qed.

(** C10: when the body has [properties.parameter] and that mapping is
    empty, [next(iter(...))] raises [StopIteration]: the county is
    logged by [logging.exception] and nothing is written; when the
    path is absent the county is logged with the no-data message,
    which is not an error, and nothing is written either.  Both ways
    the batch goes on with the remaining counties. *)
Theorem empty_mapping_fails_absent_path_skips
    weather county counties latest w data attempts :
  has_required_fields county →
  get_latest_date_for_county weather county = Ok latest →
  fetch_window cfg today latest = Ok (Some w) →
  Upstream.fetch_api_data (api (request_for cfg county w)) = (Ok data, attempts) →
  let batch := process lower strptime cfg today api (county :: counties) weather in
  let rest := process lower strptime cfg today api counties weather in
  (Upstream.properties data = Some (Upstream.Properties (Some [])) →
     batch = Outcome (UnexpectedError StopIteration) weather
                     (Some (request_for cfg county w, attempts)) :: rest
     ∧ levelname (UnexpectedError StopIteration) = ERROR)
  ∧ (Upstream.properties data = None
     ∨ Upstream.properties data = Some (Upstream.Properties None) →
     batch = Outcome NoDataAvailable weather
                     (Some (request_for cfg county w, attempts)) :: rest
     ∧ levelname NoDataAvailable ≠ ERROR).
Proof.
  intros Hreq Hl Hw Hf batch rest. unfold batch, rest. simpl.
  rewrite (window_fetched _ _ _ _ _ _ _ _ _ Hreq Hl Hw). simpl.
  rewrite Hf. simpl. unfold reconcile. split.
  - intros ->. simpl. done.
  - intros [-> | ->]; simpl; done.
Qed.

End WindowClaims.

(** C2, as stated, fails: Autauga's latest stored date is 14 June 2024,
    today is 15 June 2024 and [re_fetch_days] is 0; the window is 14 June
    to 14 June, a request is sent for it, and the county is not logged
    as having no new data. *)
Lemma latest_yesterday_is_fetched :
  let weather := [Examples.stored (Examples.today - 1)] in
  let o := Examples.fetcher 0 Examples.no_data weather Examples.autauga in
  get_latest_date_for_county weather Examples.autauga
  = Ok (VDate (DateTime (Examples.today - 1) 0))
  ∧ fetch_window (Examples.cfg 0) Examples.today
      (VDate (DateTime (Examples.today - 1) 0))
    = Ok (Some (Examples.today - 1, Examples.today - 1))
  ∧ sent o = Some (request_for (Examples.cfg 0) Examples.autauga
                     (Examples.today - 1, Examples.today - 1), 1%nat)
  ∧ logged o ≠ NoNewData.
Proof. by_evaluation. Qed.

(** A latest stored date of today is skipped. *)
Example latest_today_is_skipped :
  let weather := [Examples.stored Examples.today] in
  Examples.fetcher 0 Examples.no_data weather Examples.autauga
  = Outcome NoNewData weather None.
Proof. reflexivity. Qed.

Lemma window_of_latest_yesterday_witness :
  let weather := [Examples.stored (Examples.today - 1)] in
  let latest := DateTime (Examples.today - 1) 0 in
  (dt_day latest = Examples.today - 1 →
     fetch_window (Examples.cfg 0) Examples.today (VDate latest)
     = Ok (Some (Examples.today - 1, Examples.today - 1))
     ∧ ∃ attempts,
         sent (Examples.fetcher 0 Examples.no_data weather Examples.autauga)
         = Some (request_for (Examples.cfg 0) Examples.autauga
                   (Examples.today - 1, Examples.today - 1), attempts))
  ∧ (Examples.today ≤ dt_day latest ≤ MAXORD →
     fetch_window (Examples.cfg 0) Examples.today (VDate latest) = Ok None
     ∧ Examples.fetcher 0 Examples.no_data weather Examples.autauga
       = Outcome NoNewData weather None
     ∧ levelname NoNewData = INFO).
Proof.
  apply (window_of_latest_yesterday Instances.lower Instances.strptime
           (Examples.cfg 0) Examples.today (Examples.answers Examples.no_data)
           [Examples.stored (Examples.today - 1)] Examples.autauga
           (DateTime (Examples.today - 1) 0)).
  - reflexivity.
  - unfold today_in_range, MINORD, MAXORD, five_years, Examples.today. lia.
  - reflexivity.
  - reflexivity.
Defined.

Lemma window_of_latest_witness :
  let weather := [Examples.stored (Examples.today - 10)] in
  let latest := DateTime (Examples.today - 10) 0 in
  let start := Z.max (dt_day latest - 7) (Examples.today - five_years) in
  let end_ := Examples.today - 1 in
  fetch_window (Examples.cfg 7) Examples.today (VDate latest)
  = Ok (if start >? end_ then None else Some (start, end_))
  ∧ (start ≤ end_ →
     ∃ attempts,
       sent (Examples.fetcher 7 Examples.no_data weather Examples.autauga)
       = Some (request_for (Examples.cfg 7) Examples.autauga (start, end_),
               attempts))
  ∧ (dt_day latest = Examples.today - 10 →
     re_fetch_days (Examples.cfg 7) = 7 →
     start = Examples.today - 17 ∧ end_ = Examples.today - 1
     ∧ fetch_window (Examples.cfg 7) Examples.today (VDate latest)
       = Ok (Some (Examples.today - 17, Examples.today - 1))).
Proof.
  apply (window_of_latest Instances.lower Instances.strptime
           (Examples.cfg 7) Examples.today (Examples.answers Examples.no_data)
           [Examples.stored (Examples.today - 10)] Examples.autauga
           (DateTime (Examples.today - 10) 0)).
  - reflexivity.
  - unfold today_in_range, MINORD, MAXORD, five_years, Examples.today. lia.
  - simpl. lia.
  - unfold MINORD, MAXORD, Examples.today. simpl. lia.
  - reflexivity.
Defined.

(** C5, as stated, fails: on 1 March 2024, with a latest stored date
    of 1 January 2015 and [re_fetch_days] = 7, the window that is
    requested starts on 3 March 2019, 1825 days before today; the
    greater of [L − 7] and of the day five calendar years before today
    is 1 March 2019. *)
Lemma floor_is_1825_days_before_today :
  let today := ymd2ord 2024 3 1 in
  let latest := Instances.midnight 2015 1 1 in
  let weather := [Examples.stored (ymd2ord 2015 1 1)] in
  let o := fetch_and_store_data Instances.lower Instances.strptime
             (Examples.cfg 7) today (Examples.answers Examples.no_data)
             weather Examples.autauga in
  get_latest_date_for_county weather Examples.autauga = Ok (VDate latest)
  ∧ fetch_window (Examples.cfg 7) today (VDate latest)
    = Ok (Some (ymd2ord 2019 3 3, ymd2ord 2024 2 29))
  ∧ sent o = Some (request_for (Examples.cfg 7) Examples.autauga
                     (ymd2ord 2019 3 3, ymd2ord 2024 2 29), 1%nat)
  ∧ valid_ymd (2024 - 5) 3 1 = true
  ∧ Z.max (dt_day latest - 7) (ymd2ord (2024 - 5) 3 1) = ymd2ord 2019 3 1
  ∧ ymd2ord 2019 3 3 ≠ ymd2ord 2019 3 1.
Proof. by_evaluation. Qed.

(** C6, as stated, fails: on 1 March 2024, with nothing stored, the
    window starts on 3 March 2019, which is 1825 days earlier, and not on
    1 March 2019, the day five calendar years earlier. *)
Lemma five_years_is_1825_days :
  let today := ymd2ord 2024 3 1 in
  (latest ← get_latest_date_for_county [] Examples.autauga;
   fetch_window (Examples.cfg 7) today latest)
  = Ok (Some (ymd2ord 2019 3 3, ymd2ord 2024 2 29))
  ∧ valid_ymd (2024 - 5) 3 1 = true
  ∧ ymd2ord 2019 3 3 ≠ ymd2ord (2024 - 5) 3 1.
Proof. by_evaluation. Qed.

Lemma window_without_prior_data_witness :
  let weather := [Examples.stored_elsewhere (Examples.today - 3)] in
  (latest ← get_latest_date_for_county weather Examples.autauga;
   fetch_window (Examples.cfg 7) Examples.today latest)
  = Ok (Some (Examples.today - 1825, Examples.today - 1))
  ∧ ∃ attempts,
      sent (Examples.fetcher 7 Examples.no_data weather Examples.autauga)
      = Some (request_for (Examples.cfg 7) Examples.autauga
                (Examples.today - 1825, Examples.today - 1), attempts).
Proof.
  apply (window_without_prior_data Instances.lower Instances.strptime
           (Examples.cfg 7) Examples.today (Examples.answers Examples.no_data)
           [Examples.stored_elsewhere (Examples.today - 3)] Examples.autauga).
  - reflexivity.
  - unfold today_in_range, MINORD, MAXORD, five_years, Examples.today. lia.
  - intros d Hd. apply list_elem_of_singleton in Hd. subst d. reflexivity.
Defined.

Lemma falsy_required_field_skipped_witness :
  let o := Examples.fetcher 7 Examples.no_data [] Examples.macapa in
  logged o = MissingData
  ∧ levelname (logged o) = WARNING
  ∧ sent o = None
  ∧ weather_after o = []
  ∧ o = Examples.fetcher 7 Examples.no_data []
          (delete "latitude" Examples.macapa).
Proof.
  apply (falsy_required_field_skipped Instances.lower Instances.strptime
           (Examples.cfg 7) Examples.today (Examples.answers Examples.no_data)
           [] Examples.macapa "latitude").
  - by_decision.
  - vm_compute. eauto.
  - reflexivity.
Defined.

(** The same with an empty name. *)
Example empty_name_skipped :
  Examples.fetcher 7 Examples.no_data [] Examples.unnamed
  = Outcome MissingData [] None.
Proof. reflexivity. Qed.

Lemma empty_mapping_fails_absent_path_skips_witness :
  let w := (Examples.today - 1825, Examples.today - 1) in
  let run_ := process Instances.lower Instances.strptime (Examples.cfg 7)
                Examples.today (Examples.answers Examples.empty_mapping) in
  let batch := run_ [Examples.autauga; Examples.macapa] [] in
  let rest := run_ [Examples.macapa] [] in
  (Upstream.properties Examples.empty_mapping
   = Some (Upstream.Properties (Some [])) →
     batch = Outcome (UnexpectedError StopIteration) []
               (Some (request_for (Examples.cfg 7) Examples.autauga w, 1%nat))
             :: rest
     ∧ levelname (UnexpectedError StopIteration) = ERROR)
  ∧ (Upstream.properties Examples.empty_mapping = None
     ∨ Upstream.properties Examples.empty_mapping
       = Some (Upstream.Properties None) →
     batch = Outcome NoDataAvailable []
               (Some (request_for (Examples.cfg 7) Examples.autauga w, 1%nat))
             :: rest
     ∧ levelname NoDataAvailable ≠ ERROR).
Proof.
  apply (empty_mapping_fails_absent_path_skips Instances.lower
           Instances.strptime (Examples.cfg 7) Examples.today
           (Examples.answers Examples.empty_mapping)
           [] Examples.autauga [Examples.macapa] VNone
           (Examples.today - 1825, Examples.today - 1)
           Examples.empty_mapping 1%nat).
  - reflexivity.
  - reflexivity.
  - reflexivity.
  - reflexivity.
Defined.

(** ** The record of a date *)

Section Record.

Variable lower : string → string.
Variable cfg : config.
Variable county : document.
Variable parameters_data : Upstream.parameter_map.

Section Fold.
Variable f : string → value.

Lemma set_each_cons p ps record :
  set_each lower f (p :: ps) record
  = set_each lower f ps (<[lower p := f p]> record).
Proof. done. Qed.

Lemma set_each_other params : ∀ record k,
  k ∉ lower <$> params → set_each lower f params record !! k = record !! k.
Proof.
  induction params as [|p ps IH]; intros record k Hk; [done|].
  rewrite fmap_cons, not_elem_of_cons in Hk. destruct Hk as [Hne Hk].
  rewrite set_each_cons, IH by done. by rewrite lookup_insert_ne.
Qed.

Lemma set_each_is_Some params : ∀ record k,
  is_Some (set_each lower f params record !! k)
  ↔ k ∈ lower <$> params ∨ is_Some (record !! k).
Proof.
  induction params as [|p ps IH]; intros record k.
  - simpl. rewrite elem_of_nil. tauto.
  - rewrite set_each_cons, IH, fmap_cons, elem_of_cons.
    destruct (decide (lower p = k)) as [<-|Hne].
    + rewrite lookup_insert_eq. split; [auto|]. intros _. by right.
    + rewrite lookup_insert_ne by done.
      split; [tauto|]. intros [[?|?]|?]; [congruence|tauto..].
Qed.

(** The last parameter with a given lower-cased name decides the
    field; a parameter whose namesakes all carry its value decides
    it too. *)
Lemma set_each_lookup params : ∀ record p,
  p ∈ params →
  (∀ p', p' ∈ params → lower p' = lower p → f p' = f p) →
  set_each lower f params record !! lower p = Some (f p).
Proof.
  induction params as [|p0 ps IH]; intros record p Hp Hsame.
  - by apply elem_of_nil in Hp.
  - rewrite set_each_cons.
    destruct (decide (lower p ∈ lower <$> ps)) as [Hin|Hout].
    + apply list_elem_of_fmap in Hin as (p' & Hl & Hp').
      assert (f p' = f p) as Hv.
      { apply Hsame; [by apply list_elem_of_further|done]. }
      rewrite Hl, <- Hv. apply IH; [done|]. intros p'' Hp'' Hl'.
      rewrite Hv. apply Hsame; [by apply list_elem_of_further|congruence].
    + rewrite set_each_other by done.
      apply elem_of_cons in Hp as [->|Hp].
      * by rewrite lookup_insert_eq.
      * exfalso. apply Hout. apply list_elem_of_fmap. eauto.
Qed.

End Fold.

Lemma add_parameters_set_each date_str record :
  add_parameters lower cfg parameters_data date_str record
  = set_each lower (param_value parameters_data date_str)
      (parameters cfg) record.
Proof. done. Qed.

Lemma param_value_no_value param date_str :
  no_value parameters_data param date_str →
  param_value parameters_data date_str param = VNone.
Proof.
  unfold param_value. intros [-> | (t & -> & Ht)]; [done|].
  destruct t; [done|]. by rewrite Ht.
Qed.

Lemma base_record_is_Some a b c d e dt k :
  is_Some (base_record a b c d e dt !! k) ↔ k ∈ metadata.
Proof.
  unfold base_record, metadata.
  rewrite !lookup_insert_is_Some, lookup_singleton_is_Some.
  rewrite !elem_of_cons, elem_of_nil. split.
  - intros H. repeat (destruct H as [<-|[_ H]]; [tauto|]). subst. tauto.
  - intros H.
    repeat (destruct H as [->|H];
            [repeat (first [by left | reflexivity | right; split; [done|]])|]).
    done.
Qed.

(** C8: the record of a date has, for every requested parameter, the
    field named by the lower-cased code, whatever the response holds;
    when no other requested parameter lower-cases to the same name the
    field holds the value the response gives that parameter on that
    date, and [None] when it gives none (the code is not in the
    response, or the date is not under it). *)
Theorem record_has_every_parameter date_str date_dt param :
  param ∈ parameters cfg →
  let record := make_record lower cfg county parameters_data date_str date_dt in
  is_Some (record !! lower param)
  ∧ ((∀ p, p ∈ parameters cfg → lower p = lower param → p = param) →
     record !! lower param
     = Some (param_value parameters_data date_str param)
     ∧ (no_value parameters_data param date_str →
        record !! lower param = Some VNone)).
Proof.
  intros Hp record. unfold record, make_record.
  rewrite add_parameters_set_each. split.
  - apply set_each_is_Some. left. apply list_elem_of_fmap. eauto.
  - intros Huniq.
    assert (∀ r, set_each lower (param_value parameters_data date_str)
                   (parameters cfg) r !! lower param
                 = Some (param_value parameters_data date_str param)) as H.
    { intros r. apply set_each_lookup; [done|].
      intros p' Hp' Hl. by rewrite (Huniq p' Hp' Hl). }
    split; [apply H|]. intros Hno. rewrite H.
    by rewrite param_value_no_value.
Qed.

End Record.

(** T2M has no value on 13 June 2024 and PRECTOTCORR has one: both fields
    are in the record of that day, the first as [None]. *)
Lemma record_has_every_parameter_witness :
  let record := make_record Instances.lower (Examples.cfg 7) Examples.autauga
                  Examples.two_days "20240613"
                  (Instances.midnight 2024 6 13) in
  is_Some (record !! Instances.lower "T2M")
  ∧ record !! Instances.lower "T2M" = Some VNone
  ∧ record !! Instances.lower "PRECTOTCORR" = Some (Examples.num 1).
Proof.
  destruct (record_has_every_parameter Instances.lower (Examples.cfg 7)
              Examples.autauga Examples.two_days "20240613"
              (Instances.midnight 2024 6 13) "T2M") as [Hsome Hvalue].
  - by_decision.
  - destruct Hvalue as [_ Hnone]; [for_each_by_decision|].
    split; [exact Hsome|]. split; [|reflexivity].
    apply Hnone. right. eexists. split; reflexivity.
Defined.

(** ** Upserts *)

Section Upsert.

Lemma field_matches_get d k v : field_matches d k v = true ↔ get d k = v.
Proof.
  unfold field_matches, get. destruct (d !! k); simpl;
    rewrite bool_decide_eq_true; [|done]. split; congruence.
Qed.

Lemma matches_filter_query fips_code date_dt d :
  matches (filter_query fips_code date_dt) d
  = bool_decide (key d = (fips_code, VDate date_dt)).
Proof.
  unfold matches, filter_query, key. apply bool_decide_ext.
  rewrite map_Forall_insert by done. rewrite map_Forall_singleton.
  rewrite !field_matches_get. split.
  - by intros [-> ->].
  - by intros [= -> ->].
Qed.

Lemma key_set_id v (d : document) : key (<["_id" := v]> d) = key d.
Proof. unfold key, get. by rewrite !lookup_insert_ne. Qed.

End Upsert.

Section Reconcile.

Variable lower : string → string.
Variable strptime : string → option datetime.
Variable cfg : config.
Variable county : document.
Variable parameters_data : Upstream.parameter_map.

Hypothesis Hreserved : ∀ p, p ∈ parameters cfg → lower p ∉ reserved.

Local Abbreviation record_of := (Pass.record_of lower cfg county parameters_data).
Local Abbreviation query_of := (Pass.query_of county).
Local Abbreviation key_of := (Pass.key_of county).
Local Abbreviation upsert := (Pass.upsert lower cfg county parameters_data).
Local Abbreviation upsert_all := (Pass.upsert_all lower cfg county parameters_data).
Local Abbreviation selects call := (λ d : document, matches (query_of call) d = true).
Local Abbreviation position := (Pass.position county).
Local Abbreviation settle_at := (Pass.settle_at lower cfg county parameters_data).
Local Abbreviation settle_all_at := (Pass.settle_all_at lower cfg county parameters_data).

Lemma not_reserved k :
  k ∈ reserved → k ∉ lower <$> parameters cfg.
Proof.
  intros Hk (p & -> & Hp)%list_elem_of_fmap. by apply (Hreserved p).
Qed.

Lemma record_of_reserved call :
  record_of call !! "_id" = None
  ∧ record_of call !! "fips_code" = Some (get county "fips_code")
  ∧ record_of call !! "date" = Some (VDate call.2).
Proof.
  unfold Pass.record_of, make_record. rewrite add_parameters_set_each.
  rewrite !set_each_other by (apply not_reserved; set_solver).
  done.
Qed.

(** Every record has the same fields. *)
Lemma record_of_is_Some call k :
  is_Some (record_of call !! k)
  ↔ k ∈ lower <$> parameters cfg ∨ k ∈ metadata.
Proof.
  unfold Pass.record_of, make_record. rewrite add_parameters_set_each.
  by rewrite set_each_is_Some, base_record_is_Some.
Qed.

Lemma record_of_fields call call' k :
  record_of call !! k = None → record_of call' !! k = None.
Proof. by rewrite !eq_None_not_Some, !record_of_is_Some. Qed.

Lemma key_record_of call d : key (record_of call ∪ d) = key_of call.
Proof.
  destruct (record_of_reserved call) as (_ & Hf & Hd).
  unfold key, Pass.key_of, get.
  by rewrite (lookup_union_Some_l _ _ _ _ Hf), (lookup_union_Some_l _ _ _ _ Hd).
Qed.

Lemma matches_true call d :
  matches (query_of call) d = true ↔ key d = key_of call.
Proof.
  unfold Pass.query_of. by rewrite matches_filter_query, bool_decide_eq_true.
Qed.

Lemma matches_false call d :
  matches (query_of call) d = false ↔ key d ≠ key_of call.
Proof.
  unfold Pass.query_of. by rewrite matches_filter_query, bool_decide_eq_false.
Qed.

Lemma update_one_upsert call c :
  update_one (query_of call) (record_of call) c = Ok (upsert c call).
Proof.
  destruct (record_of_reserved call) as (Hid & _ & _).
  unfold update_one, Pass.upsert.
  destruct (list_find _ c) as [[i d]|]; rewrite ?Hid; [done|].
  rewrite lookup_union_r by done. done.
Qed.

(** *** A pass on the collection *)

Lemma record_of_absorbs call call' (d : document) :
  record_of call ∪ (record_of call' ∪ d) = record_of call ∪ d.
Proof.
  apply map_eq. intros k.
  destruct (record_of call !! k) as [v|] eqn:E.
  - by rewrite !(lookup_union_Some_l _ _ _ _ E).
  - rewrite !(lookup_union_r _ _ _ E).
    by rewrite (lookup_union_r _ _ _ (record_of_fields _ call' _ E)).
Qed.

Lemma inserted_settled call (q : document) v :
  let d : document := <["_id" := v]> (record_of call ∪ q) in
  record_of call ∪ d = d.
Proof.
  destruct (record_of_reserved call) as (Hid & _ & _). simpl.
  apply map_eq. intros k. destruct (record_of call !! k) as [x|] eqn:E.
  - rewrite (lookup_union_Some_l _ _ _ _ E).
    rewrite lookup_insert_ne by congruence.
    by rewrite (lookup_union_Some_l _ _ _ _ E).
  - by rewrite (lookup_union_r _ _ _ E).
Qed.

Lemma upsert_new c call :
  list_find (selects call) c = None →
  upsert c call
  = c ++ [<["_id" := VOid (fresh_oid c)]> (record_of call ∪ query_of call)]
  ∧ ∀ d, d ∈ c → key d ≠ key_of call.
Proof.
  intros Hfind. unfold Pass.upsert. rewrite Hfind. split; [done|].
  apply list_find_None in Hfind. rewrite Forall_forall in Hfind.
  intros d Hd. apply matches_false. specialize (Hfind d Hd).
  by destruct (matches _ d).
Qed.

Lemma keys_upsert_found c call i d :
  list_find (selects call) c = Some (i, d) →
  key <$> upsert c call = key <$> c.
Proof.
  intros Hfind. unfold Pass.upsert. rewrite Hfind.
  apply list_find_Some in Hfind as (Hi & Hm & _). apply matches_true in Hm.
  rewrite list_fmap_insert, key_record_of, <- Hm.
  apply list_insert_id. by rewrite list_lookup_fmap, Hi.
Qed.

Lemma keys_upsert_new c call :
  list_find (selects call) c = None →
  key <$> upsert c call = (key <$> c) ++ [key_of call].
Proof.
  intros Hfind. unfold Pass.upsert. rewrite Hfind, fmap_app. simpl.
  by rewrite key_set_id, key_record_of.
Qed.

(** A pass adds no second document under a pair. *)
Lemma unique_keys_upsert c call :
  unique_keys c → unique_keys (upsert c call).
Proof.
  intros Hu. unfold unique_keys.
  destruct (list_find (selects call) c) as [[i d]|] eqn:Hfind.
  - by rewrite (keys_upsert_found _ _ _ _ Hfind).
  - rewrite (keys_upsert_new _ _ Hfind).
    destruct (upsert_new _ _ Hfind) as [_ Hno].
    apply NoDup_app. split; [done|]. split; [|apply NoDup_singleton].
    intros k (d & -> & Hd)%list_elem_of_fmap.
    rewrite list_elem_of_singleton. by apply Hno.
Qed.

(** A pass leaves the documents of the other pairs alone. *)
Lemma upsert_other_keys c call d :
  key d ≠ key_of call → d ∈ upsert c call ↔ d ∈ c.
Proof.
  intros Hk.
  destruct (list_find (selects call) c) as [[i d0]|] eqn:Hfind.
  - unfold Pass.upsert. rewrite Hfind.
    apply list_find_Some in Hfind as (Hi & Hm & _). apply matches_true in Hm.
    rewrite !list_elem_of_lookup. split.
    + intros [j Hj]. apply list_lookup_insert_Some in Hj
        as [(-> & <- & _)|[Hne Hj]]; [|eauto].
      by rewrite key_record_of in Hk.
    + intros [j Hj]. exists j. rewrite list_lookup_insert_ne; [done|].
      intros <-. congruence.
  - destruct (upsert_new _ _ Hfind) as [-> _].
    rewrite elem_of_app, list_elem_of_singleton. split; [|auto].
    intros [?| ->]; [done|]. exfalso. apply Hk.
    by rewrite key_set_id, key_record_of.
Qed.

(** *** All the passes of a loop *)

Lemma upsert_all_cons c call calls :
  upsert_all c (call :: calls) = upsert_all (upsert c call) calls.
Proof. done. Qed.

Lemma upsert_all_snoc c calls call :
  upsert_all c (calls ++ [call]) = upsert (upsert_all c calls) call.
Proof. unfold Pass.upsert_all. by rewrite foldl_app. Qed.

Lemma unique_keys_upsert_all calls : ∀ c,
  unique_keys c → unique_keys (upsert_all c calls).
Proof.
  induction calls as [|call calls IH]; intros c Hu; [done|].
  rewrite upsert_all_cons. by apply IH, unique_keys_upsert.
Qed.

Lemma upsert_all_other_keys calls : ∀ c d,
  (∀ call, call ∈ calls → key d ≠ key_of call) →
  d ∈ upsert_all c calls ↔ d ∈ c.
Proof.
  induction calls as [|call calls IH]; intros c d Hk; [done|].
  rewrite upsert_all_cons, IH.
  - apply upsert_other_keys. apply Hk, list_elem_of_here.
  - intros call' Hc. by apply Hk, list_elem_of_further.
Qed.

(** *** The passes seen index by index

    A pass works on the first document of its pair, and the pairs of
    the documents do not move. *)

Lemma position_find call c :
  position (key <$> c) call = fst <$> list_find (selects call) c.
Proof.
  unfold Pass.position. rewrite list_find_fmap.
  rewrite (list_find_ext _ (selects call)).
  - by destruct (list_find (selects call) c) as [[i d]|].
  - intros d. simpl. symmetry. apply matches_true.
Qed.

Lemma position_found call c i d :
  list_find (selects call) c = Some (i, d) →
  position (key <$> c) call = Some i.
Proof. intros H. by rewrite position_find, H. Qed.

Lemma position_Some call c i :
  position (key <$> c) call = Some i →
  ∃ d, list_find (selects call) c = Some (i, d).
Proof.
  rewrite position_find.
  destruct (list_find (selects call) c) as [[j d]|]; [|done].
  intros [= ->]. eauto.
Qed.

Lemma position_app keys keys' call :
  is_Some (position keys call) →
  position (keys ++ keys') call = position keys call.
Proof.
  unfold Pass.position.
  destruct (list_find _ keys) as [[i k]|] eqn:E; [|by intros [? [=]]].
  intros _. by rewrite (list_find_app_l _ _ _ _ _ E).
Qed.

Lemma position_new keys call :
  position keys call = None →
  position (keys ++ [key_of call]) call = Some (length keys).
Proof.
  unfold Pass.position.
  destruct (list_find _ keys) as [[i k]|] eqn:E; [done|]. intros _.
  rewrite (list_find_app_r _ _ _ E). simpl.
  by rewrite decide_True.
Qed.

Lemma settle_all_at_cons keys call calls i d :
  settle_all_at keys (call :: calls) i d
  = settle_all_at keys calls i (settle_at keys i d call).
Proof. done. Qed.

Lemma settle_all_at_snoc keys calls call i d :
  settle_all_at keys (calls ++ [call]) i d
  = settle_at keys i (settle_all_at keys calls i d) call.
Proof. unfold Pass.settle_all_at. by rewrite foldl_app. Qed.

Lemma settle_at_here keys call i d :
  position keys call = Some i → settle_at keys i d call = record_of call ∪ d.
Proof. intros H. unfold Pass.settle_at. by rewrite bool_decide_eq_true_2. Qed.

Lemma settle_at_elsewhere keys call i d :
  position keys call ≠ Some i → settle_at keys i d call = d.
Proof. intros H. unfold Pass.settle_at. by rewrite bool_decide_eq_false_2. Qed.

Lemma record_of_absorbs_settle_at call keys i d call' :
  record_of call ∪ settle_at keys i d call' = record_of call ∪ d.
Proof.
  unfold Pass.settle_at. case_bool_decide; [|done]. apply record_of_absorbs.
Qed.

Lemma record_of_absorbs_settle_all_at call keys calls i : ∀ d,
  record_of call ∪ settle_all_at keys calls i d = record_of call ∪ d.
Proof.
  induction calls as [|call' calls IH]; intros d; [done|].
  by rewrite settle_all_at_cons, IH, record_of_absorbs_settle_at.
Qed.

(** The passes look at the pairs only through the positions. *)
Lemma settle_all_at_ext keys keys' calls i : ∀ d,
  Forall (λ call, position keys' call = position keys call) calls →
  settle_all_at keys' calls i d = settle_all_at keys calls i d.
Proof.
  induction calls as [|call calls IH]; intros d Hp; [done|].
  apply Forall_cons in Hp as [Hcall Hp].
  rewrite !settle_all_at_cons, IH by done.
  unfold Pass.settle_at. by rewrite Hcall.
Qed.

Lemma upsert_found_at c call i :
  position (key <$> c) call = Some i →
  upsert c call = imap (λ j d, settle_at (key <$> c) j d call) c.
Proof.
  intros Hpos. destruct (position_Some _ _ _ Hpos) as [d Hfind].
  unfold Pass.upsert. rewrite Hfind.
  apply list_find_Some in Hfind as (Hi & _ & _).
  apply list_eq. intros j. rewrite list_lookup_imap.
  destruct (decide (j = i)) as [->|Hne].
  - rewrite list_lookup_insert_eq by (by eapply lookup_lt_Some).
    rewrite Hi. simpl. by rewrite settle_at_here.
  - rewrite list_lookup_insert_ne by done.
    destruct (c !! j) as [d'|]; [|done]. simpl.
    rewrite settle_at_elsewhere; [done|]. rewrite Hpos. congruence.
Qed.

(** On a collection that holds a document for each of the pairs, the
    passes act index by index. *)
Lemma upsert_all_settle_all_at calls : ∀ c,
  Forall (λ call, is_Some (position (key <$> c) call)) calls →
  upsert_all c calls = imap (settle_all_at (key <$> c) calls) c.
Proof.
  induction calls as [|call calls IH]; intros c Hp.
  - simpl. apply list_eq. intros j. rewrite list_lookup_imap.
    by destruct (c !! j).
  - apply Forall_cons in Hp as [[i Hcall] Hp].
    destruct (position_Some _ _ _ Hcall) as [d Hfind].
    pose proof (keys_upsert_found _ _ _ _ Hfind) as Hkeys.
    rewrite upsert_all_cons, IH by (by rewrite Hkeys).
    rewrite Hkeys, (upsert_found_at _ _ _ Hcall).
    apply list_eq. intros j. rewrite !list_lookup_imap.
    by destruct (c !! j).
Qed.

(** After the passes, going through them again leaves the document at
    every index as it is, and every pass finds a document. *)
Lemma upsert_all_fixed_at calls : ∀ c,
  let after := upsert_all c calls in
  (∀ i d, after !! i = Some d →
          settle_all_at (key <$> after) calls i d = d)
  ∧ Forall (λ call, is_Some (position (key <$> after) call)) calls.
Proof.
  induction calls as [|call calls IH] using rev_ind; intros c after.
  - split; [done|apply Forall_nil_2].
  - destruct (IH c) as [Hfix Hpres]. unfold after. clear after.
    rewrite upsert_all_snoc.
    set (before := upsert_all c calls) in *.
    destruct (list_find (selects call) before) as [[i0 d0]|] eqn:Hfind.
    + pose proof (keys_upsert_found _ _ _ _ Hfind) as Hkeys.
      pose proof (position_found _ _ _ _ Hfind) as Hpos.
      rewrite Hkeys. split.
      * intros i d Hi. rewrite settle_all_at_snoc.
        unfold Pass.upsert in Hi. rewrite Hfind in Hi.
        apply list_find_Some in Hfind as (Hi0 & _ & _).
        destruct (decide (i = i0)) as [->|Hne].
        -- rewrite list_lookup_insert_eq in Hi by (by eapply lookup_lt_Some).
           injection Hi as <-. rewrite (settle_at_here _ _ _ _ Hpos).
           by rewrite record_of_absorbs_settle_all_at, record_of_absorbs.
        -- rewrite list_lookup_insert_ne in Hi by done.
           rewrite (Hfix i d Hi). apply settle_at_elsewhere.
           rewrite Hpos. congruence.
      * apply Forall_app. split; [done|].
        apply Forall_singleton. rewrite Hpos. eauto.
    + pose proof (keys_upsert_new _ _ Hfind) as Hkeys.
      assert (position (key <$> before) call = None) as Hnone.
      { by rewrite position_find, Hfind. }
      pose proof (position_new _ _ Hnone) as Hpos.
      rewrite length_fmap in Hpos.
      assert (Forall (λ call', position ((key <$> before) ++ [key_of call]) call'
                               = position (key <$> before) call') calls)
        as Hsame.
      { eapply Forall_impl; [exact Hpres|]. intros call'. simpl.
        apply position_app. }
      rewrite Hkeys. split.
      * intros i d Hi. rewrite settle_all_at_snoc.
        rewrite (settle_all_at_ext _ _ _ _ _ Hsame).
        destruct (upsert_new _ _ Hfind) as [Heq _]. rewrite Heq in Hi.
        apply lookup_app_Some in Hi as [Hi|[Hlen Hi]].
        -- rewrite (Hfix i d Hi). apply settle_at_elsewhere.
           apply lookup_lt_Some in Hi. rewrite Hpos. intros [= <-]. lia.
        -- apply list_lookup_singleton_Some in Hi as [Hi <-].
           assert (i = length before) as -> by lia.
           rewrite (settle_at_here _ _ _ _ Hpos).
           rewrite record_of_absorbs_settle_all_at.
           apply inserted_settled.
      * apply Forall_app. split.
        -- eapply Forall_impl; [exact Hpres|]. intros call' Hc. simpl.
           by rewrite position_app.
        -- apply Forall_singleton. rewrite Hpos. eauto.
Qed.

(** Going through the loop a second time changes nothing. *)
Lemma upsert_all_twice calls c :
  upsert_all (upsert_all c calls) calls = upsert_all c calls.
Proof.
  destruct (upsert_all_fixed_at calls c) as [Hfix Hpres].
  rewrite upsert_all_settle_all_at by done.
  apply list_eq. intros i. rewrite list_lookup_imap.
  destruct (upsert_all c calls !! i) as [d|] eqn:Hi; [|done]. simpl.
  by rewrite (Hfix i d Hi).
Qed.

(** After the passes every pair has its document. *)
Lemma upsert_all_present calls c call :
  call ∈ calls →
  ∃ i d, upsert_all c calls !! i = Some d ∧ key d = key_of call.
Proof.
  intros Hc. destruct (upsert_all_fixed_at calls c) as [_ Hpres].
  rewrite Forall_forall in Hpres. destruct (Hpres call Hc) as [i Hpos].
  destruct (position_Some _ _ _ Hpos) as [d Hfind].
  apply list_find_Some in Hfind as (Hi & Hm & _).
  exists i, d. split; [done|]. by apply matches_true.
Qed.

(** *** The loop *)


Lemma parsed_all dates :
  Forall (λ date_str, is_Some (strptime date_str)) dates →
  (Pass.parsed strptime dates).2 = true
  ∧ ∀ date_str date_dt,
      date_str ∈ dates → strptime date_str = Some date_dt →
      (date_str, date_dt) ∈ (Pass.parsed strptime dates).1.
Proof.
  induction dates as [|s dates IH]; intros Hall; simpl.
  - split; [done|]. by intros ?? ?%elem_of_nil.
  - apply Forall_cons in Hall as [[dt Hs] Hall].
    destruct (IH Hall) as [Hok Hin]. rewrite Hs.
    destruct (Pass.parsed strptime dates) as [calls all]. simpl in *.
    split; [done|].
    intros date_str date_dt [->|H]%elem_of_cons Hp.
    + assert (date_dt = dt) as -> by congruence. apply list_elem_of_here.
    + apply list_elem_of_further. by apply Hin.
Qed.

Lemma store_dates_upsert_all dates : ∀ c,
  store_dates lower strptime cfg county parameters_data dates c
  = (upsert_all c (Pass.parsed strptime dates).1,
     if (Pass.parsed strptime dates).2 then Ok tt else Raise ValueError).
Proof.
  induction dates as [|date_str dates IH]; intros c; simpl; [done|].
  destruct (strptime date_str) as [date_dt|]; [|done].
  pose proof (update_one_upsert (date_str, date_dt) c) as Hup.
  unfold Pass.query_of, Pass.record_of in Hup. simpl in Hup. rewrite Hup, IH.
  by destruct (Pass.parsed strptime dates).
Qed.

End Reconcile.

(** ** Claims on the stored records *)

(** [reconcile] on a body whose parameter mapping is not empty. *)
Lemma reconcile_parameters lower strptime cfg county data weather
    code first rest :
  (∀ p, p ∈ parameters cfg → lower p ∉ reserved) →
  Upstream.properties data
  = Some (Upstream.Properties (Some ((code, first) :: rest))) →
  reconcile lower strptime cfg county data weather
  = (Pass.upsert_all lower cfg county ((code, first) :: rest) weather
       (Pass.parsed strptime first.*1).1,
     if (Pass.parsed strptime first.*1).2
     then Ok Updated else Raise ValueError).
Proof.
  intros Hres Hdata. unfold reconcile. rewrite Hdata. simpl.
  rewrite (store_dates_upsert_all _ _ _ _ _ Hres).
  by destruct (Pass.parsed strptime first.*1).2.
Qed.

(** C3, as stated, fails: the document stored for Autauga on 14 June
    2024 has a field [ws2m] that the record computed for that day does
    not have; after the run the document still has it. *)
Lemma upsert_keeps_other_fields :
  let weather := [Examples.stored_with_wind (Examples.today - 1)] in
  let o := Examples.fetcher 0 (Examples.body_of Examples.one_day) weather
             Examples.autauga in
  let record := make_record Instances.lower (Examples.cfg 0) Examples.autauga
                  Examples.one_day "20240614"
                  (Instances.midnight 2024 6 14) in
  logged o = Updated
  ∧ (λ d : document, d !! "ws2m") <$> weather_after o = [Some (Examples.num 3)]
  ∧ (λ d : document, d !! "t2m") <$> weather_after o = [Some (Examples.num 25)]
  ∧ record !! "ws2m" = None
  ∧ record !! "_id" = None.
Proof. by_evaluation. Qed.

(** C3, amended: a pass of the loop merges the record into the
    document stored under its (fips_code, date), field by field: the
    document takes every field of the record, and keeps every other field
    it had; when no document is stored under the pair, the new document
    is the record with an [_id]. *)
Theorem upsert_merges_fields lower strptime cfg county parameters_data
    date_str date_dt weather :
  (∀ p, p ∈ parameters cfg → lower p ∉ reserved) →
  strptime date_str = Some date_dt →
  let record := make_record lower cfg county parameters_data date_str date_dt in
  let query := filter_query (get county "fips_code") date_dt in
  let after :=
    store_dates lower strptime cfg county parameters_data [date_str] weather in
  match list_find (λ d, matches query d = true) weather with
  | Some (i, d) =>
      ∃ d' : document,
        after = (<[i := d']> weather, Ok tt)
        ∧ (∀ k v, record !! k = Some v → d' !! k = Some v)
        ∧ (∀ k, record !! k = None → d' !! k = d !! k)
  | None =>
      ∃ d' : document,
        after = (weather ++ [d'], Ok tt)
        ∧ (∀ k v, record !! k = Some v → d' !! k = Some v)
        ∧ (∀ k, record !! k = None → k ≠ "_id" → d' !! k = None)
        ∧ is_Some (d' !! "_id")
  end.
Proof.
  intros Hres Hparse record query after.
  assert (after = (Pass.upsert lower cfg county parameters_data weather
                     (date_str, date_dt), Ok tt)) as ->.
  { unfold after. rewrite (store_dates_upsert_all _ _ _ _ _ Hres). simpl.
    by rewrite Hparse. }
  destruct (record_of_reserved lower cfg county parameters_data Hres
              (date_str, date_dt)) as (Hid & Hf & Hd).
  unfold Pass.upsert, Pass.query_of, Pass.record_of in *. simpl in *.
  fold record in Hid, Hf, Hd |- *. fold query.
  destruct (list_find _ weather) as [[i d]|].
  - exists (record ∪ d). split; [done|]. split.
    + intros k v Hk. by apply lookup_union_Some_l.
    + intros k Hk. by apply lookup_union_r.
  - eexists. split; [done|]. split; [|split].
    + intros k v Hk. rewrite lookup_insert_ne by congruence.
      by apply lookup_union_Some_l.
    + intros k Hk Hne. rewrite lookup_insert_ne by done.
      rewrite lookup_union_r by done. unfold query, filter_query.
      rewrite lookup_insert_ne by congruence.
      apply lookup_singleton_ne. congruence.
    + rewrite lookup_insert_eq. eauto.
Qed.

Lemma upsert_merges_fields_witness :
  let weather := [Examples.stored_with_wind (Examples.today - 1)] in
  let record := make_record Instances.lower (Examples.cfg 0) Examples.autauga
                  Examples.one_day "20240614"
                  (Instances.midnight 2024 6 14) in
  let query := filter_query (get Examples.autauga "fips_code")
                 (Instances.midnight 2024 6 14) in
  let after :=
    store_dates Instances.lower Instances.strptime (Examples.cfg 0)
      Examples.autauga Examples.one_day ["20240614"] weather in
  match list_find (λ d, matches query d = true) weather with
  | Some (i, d) =>
      ∃ d' : document,
        after = (<[i := d']> weather, Ok tt)
        ∧ (∀ k v, record !! k = Some v → d' !! k = Some v)
        ∧ (∀ k, record !! k = None → d' !! k = d !! k)
  | None =>
      ∃ d' : document,
        after = (weather ++ [d'], Ok tt)
        ∧ (∀ k v, record !! k = Some v → d' !! k = Some v)
        ∧ (∀ k, record !! k = None → k ≠ "_id" → d' !! k = None)
        ∧ is_Some (d' !! "_id")
  end.
Proof.
  apply (upsert_merges_fields Instances.lower Instances.strptime
           (Examples.cfg 0) Examples.autauga Examples.one_day "20240614"
           (Instances.midnight 2024 6 14)
           [Examples.stored_with_wind (Examples.today - 1)]).
  - for_each_by_decision.
  - reflexivity.
Defined.

(** C4: reconciling a response and then reconciling the same response
    again leaves the collection, and the outcome, as after the first
    time; and a collection with at most one document per
    (fips_code, date) still has at most one per pair afterwards.  No
    requested parameter is to lower-case to [fips_code], [date] or
    [_id]. *)
Theorem reconcile_idempotent lower strptime cfg county data weather :
  (∀ p, p ∈ parameters cfg → lower p ∉ reserved) →
  let once := reconcile lower strptime cfg county data weather in
  let twice := reconcile lower strptime cfg county data once.1 in
  twice = once ∧ (unique_keys weather → unique_keys once.1).
Proof.
  intros Hres.
  destruct (Upstream.properties data) as [[[[|[code first] rest]|]]|] eqn:E;
    try (unfold reconcile; rewrite E; simpl; done).
  simpl. rewrite !(reconcile_parameters _ _ _ _ _ _ _ _ _ Hres E). simpl.
  rewrite (upsert_all_twice _ _ _ _ Hres).
  split; [done|]. by apply unique_keys_upsert_all.
Qed.

Lemma reconcile_idempotent_witness :
  let weather := [Examples.stored (Examples.today - 1);
                  Examples.stored_elsewhere (Examples.today - 1)] in
  let once := Examples.reconciler (Examples.body_of Examples.two_days) weather in
  let twice := Examples.reconciler (Examples.body_of Examples.two_days) once.1 in
  twice = once ∧ unique_keys once.1.
Proof.
  destruct (reconcile_idempotent Instances.lower Instances.strptime
              (Examples.cfg 7) Examples.autauga
              (Examples.body_of Examples.two_days)
              [Examples.stored (Examples.today - 1);
               Examples.stored_elsewhere (Examples.today - 1)])
    as [Hsame Hunique].
  - for_each_by_decision.
  - split; [exact Hsame|]. apply Hunique. unfold unique_keys. by_decision.
Defined.

(** The run of the witness: it updates the record of 14 June and
    inserts one for 13 June. *)
Example reconcile_two_days :
  let weather := [Examples.stored (Examples.today - 1);
                  Examples.stored_elsewhere (Examples.today - 1)] in
  let once := Examples.reconciler (Examples.body_of Examples.two_days) weather in
  once.2 = Ok Updated
  ∧ key <$> once.1
    = [(VStr "01001", VDate (Instances.midnight 2024 6 14));
       (VStr "16003", VDate (Instances.midnight 2024 6 14));
       (VStr "01001", VDate (Instances.midnight 2024 6 13))].
Proof. by_evaluation. Qed.





(** * Part IV: further properties of the code *)

(** ** Reading the latest date back *)

Section LatestDate.

Lemma keep_greater_is_Some query k best d :
  is_Some best ∨ matches query d = true →
  is_Some (keep_greater query k best d).
Proof.
  unfold keep_greater. intros [[b ->]|Hm].
  - destruct (matches query d); [|eauto]. destruct (bson_ltb _ _); eauto.
  - rewrite Hm. destruct best as [b|]; [|eauto]. destruct (bson_ltb _ _); eauto.
Qed.

Lemma find_one_desc_is_Some query k (c : collection) d :
  d ∈ c → matches query d = true → is_Some (find_one_desc query k c).
Proof.
  unfold find_one_desc. generalize (@None document).
  induction c as [|d' c IH]; intros best Hd Hm; [by apply elem_of_nil in Hd|].
  simpl. apply elem_of_cons in Hd as [->|Hd].
  - assert (is_Some (keep_greater query k best d')) as [b Hb].
    { apply keep_greater_is_Some. by right. }
    rewrite Hb. clear. revert b. induction c as [|x c IH]; intros b; simpl; [eauto|].
    destruct (keep_greater_is_Some query k (Some b) x) as [b' ->]; [eauto|].
    apply IH.
  - by apply IH.
Qed.

(** A datetime outranks every value that is not one. *)
Lemma bson_not_below_date v x :
  bson_ltb v (Some (VDate x)) = false →
  ∃ y, v = Some (VDate y) ∧ date_le x y.
Proof.
  intros H. destruct v as [[| | | |y|]|]; try discriminate.
  exists y. split; [done|]. by apply bson_ltb_date_le.
Qed.

(** A county with a stored datetime gets a datetime back, not before
    that one. *)
Lemma get_latest_of_dated weather county d x :
  is_Some (county !! "fips_code") →
  d ∈ weather →
  get d "fips_code" = get county "fips_code" →
  d !! "date" = Some (VDate x) →
  ∃ latest, get_latest_date_for_county weather county = Ok (VDate latest)
            ∧ date_le x latest.
Proof.
  intros [fips_code Hf] Hd Hfd Hx. unfold get_latest_date_for_county.
  rewrite Hf.
  assert (get county "fips_code" = fips_code) as Hg
    by (unfold get; by rewrite Hf).
  rewrite Hg in Hfd. apply matches_fips_code in Hfd.
  destruct (find_one_desc_greatest {[ "fips_code" := fips_code ]} "date" weather)
    as [_ Hb].
  destruct (Hb d x Hd Hfd Hx) as (b & -> & Hle).
  apply bson_not_below_date in Hle as (y & Hy & Hle).
  rewrite bool_decide_eq_false_2.
  - rewrite Hy. eauto.
  - intros ->. by rewrite lookup_empty in Hy.
Qed.

(** X1: when [get_latest_date_for_county] returns a datetime, a
    document of the county is stored under it and none of the county's
    documents has a later one; and it does return a datetime as soon as
    one document of the county has one, whatever else is stored under
    [date]. *)
Theorem latest_date_is_greatest weather county :
  is_Some (county !! "fips_code") →
  (∀ latest,
     get_latest_date_for_county weather county = Ok (VDate latest) →
     (∃ b, b ∈ weather
           ∧ get b "fips_code" = get county "fips_code"
           ∧ b !! "date" = Some (VDate latest))
     ∧ ∀ d x, d ∈ weather →
              get d "fips_code" = get county "fips_code" →
              d !! "date" = Some (VDate x) →
              date_le x latest)
  ∧ ∀ d x, d ∈ weather →
           get d "fips_code" = get county "fips_code" →
           d !! "date" = Some (VDate x) →
           ∃ latest, get_latest_date_for_county weather county
                     = Ok (VDate latest).
Proof.
  intros Hf. split.
  - intros latest. apply get_latest_is_latest.
  - intros d x Hd Hfd Hx.
    destruct (get_latest_of_dated weather county d x Hf Hd Hfd Hx)
      as (latest & Hl & _).
    eauto.
Qed.

End LatestDate.

Lemma latest_date_is_greatest_witness :
  get_latest_date_for_county
    (Samples.string_dated :: Samples.two_records) Examples.autauga
  = Ok (VDate (DateTime (Examples.today - 1) 0))
  ∧ ∀ d x, d ∈ Samples.string_dated :: Samples.two_records →
           get d "fips_code" = get Examples.autauga "fips_code" →
           d !! "date" = Some (VDate x) →
           date_le x (DateTime (Examples.today - 1) 0).
Proof.
  destruct (latest_date_is_greatest
              (Samples.string_dated :: Samples.two_records) Examples.autauga)
    as [Hgreatest _].
  - vm_compute. eauto.
  - split; [reflexivity|]. apply Hgreatest. reflexivity.
Defined.

Section StoredDates.

Variable lower : string → string.
Variable strptime : string → option datetime.
Variable cfg : config.
Variable today : Z.
Variable api : request → nat → Upstream.attempt.

(** X2: a county whose stored documents all lack the [date] field is
    not fetched: [latest_record['date']] raises [KeyError], which is
    logged as an unexpected error, and nothing is sent or written. *)
Theorem undated_records_block_the_county weather county d :
  has_required_fields county →
  d ∈ weather →
  get d "fips_code" = get county "fips_code" →
  (∀ d', d' ∈ weather →
         get d' "fips_code" = get county "fips_code" →
         d' !! "date" = None) →
  get_latest_date_for_county weather county = Raise (KeyError "date")
  ∧ fetch_and_store_data lower strptime cfg today api weather county
    = Outcome (UnexpectedError (KeyError "date")) weather None.
Proof.
  intros Hreq Hd Hfd Hnone.
  destruct (required_field_present county "fips_code") as [Hf Ht];
    [set_solver|done|].
  assert (get_latest_date_for_county weather county = Raise (KeyError "date"))
    as Hl.
  { unfold get_latest_date_for_county. rewrite Hf.
    set (query := {[ "fips_code" := get county "fips_code" ]} : document).
    destruct (find_one_desc_is_Some query "date" weather d Hd) as [b Hb].
    { by apply matches_fips_code. }
    destruct (find_one_desc_greatest query "date" weather) as [Hm _].
    rewrite Hb. destruct (Hm b Hb) as [Hin Hmb].
    apply matches_fips_code in Hmb.
    rewrite bool_decide_eq_false_2.
    - by rewrite (Hnone b Hin Hmb).
    - intros ->. rewrite <- Hmb in Ht. unfold get in Ht.
      by rewrite lookup_empty in Ht. }
  split; [done|]. unfold fetch_and_store_data. by rewrite Hreq, Hl.
Qed.

(** X3: what a reconcile stores is read back: after the loop has gone
    through the dates of the first table, the latest date of the county
    is a datetime not before any of them. *)
Theorem stored_dates_are_read_back county data weather code first rest
    date_str date_dt :
  (∀ p, p ∈ parameters cfg → lower p ∉ reserved) →
  is_Some (county !! "fips_code") →
  Upstream.properties data
  = Some (Upstream.Properties (Some ((code, first) :: rest))) →
  Forall (λ date_str, is_Some (strptime date_str)) first.*1 →
  date_str ∈ first.*1 →
  strptime date_str = Some date_dt →
  ∃ latest,
    get_latest_date_for_county
      (reconcile lower strptime cfg county data weather).1 county
    = Ok (VDate latest)
    ∧ date_le date_dt latest.
Proof.
  intros Hres Hf Hdata Hall Hd Hp.
  rewrite (reconcile_parameters _ _ _ _ _ _ _ _ _ Hres Hdata). simpl.
  destruct (parsed_all strptime _ Hall) as [_ Hin].
  destruct (upsert_all_present lower cfg county ((code, first) :: rest) Hres
              _ weather _ (Hin _ _ Hd Hp)) as (i & d & Hi & Hk).
  injection Hk as Hkf Hkd. simpl in Hkd.
  apply (get_latest_of_dated _ county d date_dt); [done| |done|].
  - apply list_elem_of_lookup. eauto.
  - unfold get in Hkd. by destruct (d !! "date") as [v|]; simplify_eq/=.
Qed.

End StoredDates.

Lemma undated_records_block_the_county_witness :
  get_latest_date_for_county [Samples.undated] Examples.autauga
  = Raise (KeyError "date")
  ∧ Examples.fetcher 7 Examples.no_data [Samples.undated] Examples.autauga
    = Outcome (UnexpectedError (KeyError "date")) [Samples.undated] None.
Proof.
  apply (undated_records_block_the_county Instances.lower Instances.strptime
           (Examples.cfg 7) Examples.today (Examples.answers Examples.no_data)
           [Samples.undated] Examples.autauga Samples.undated).
  - reflexivity.
  - by_decision.
  - reflexivity.
  - intros d' Hd' _. apply list_elem_of_singleton in Hd'. subst d'. reflexivity.
Defined.

Lemma stored_dates_are_read_back_witness :
  ∃ latest,
    get_latest_date_for_county
      (Examples.reconciler (Examples.body_of Examples.two_days)
         [Examples.stored (Examples.today - 4)]).1 Examples.autauga
    = Ok (VDate latest)
    ∧ date_le (Instances.midnight 2024 6 14) latest.
Proof.
  apply (stored_dates_are_read_back Instances.lower Instances.strptime
           (Examples.cfg 7) Examples.autauga
           (Examples.body_of Examples.two_days)
           [Examples.stored (Examples.today - 4)] "PRECTOTCORR"
           [("20240613", Examples.num 1); ("20240614", Examples.num 2)]
           [("T2M", [("20240614", Examples.num 25)])] "20240614").
  - for_each_by_decision.
  - vm_compute. eauto.
  - reflexivity.
  - by_decision.
  - by_decision.
  - reflexivity.
Defined.

(** ** The request *)

Section Settles.
Import Upstream.

Lemma retried_retry e a :
  fetch_api_data_once a = Raise e →
  retried a ↔ retry_if_exception_type e = true.
Proof.
  intros Ha. unfold retried. rewrite Ha. split.
  - by intros [x [= ->]].
  - intros [x ->]%retry_if_exception_type_true. eauto.
Qed.

(** The loop ends at the first attempt that is not retried, or at the
    last attempt allowed. *)
Lemma retrying_settles left : ∀ n k http,
  (n ≤ k ≤ n + left)%nat →
  (∀ j, (n ≤ j < k)%nat → retried (http j)) →
  ((k < n + left)%nat → ¬ retried (http k)) →
  retrying left n http = (fetch_api_data_once (http k), k).
Proof.
  induction left as [|left IH]; intros n k http Hk Hbefore Hlast; simpl.
  - assert (k = n) as -> by lia.
    destruct (fetch_api_data_once (http n)) as [data|e]; [done|].
    by destruct (retry_if_exception_type e).
  - destruct (decide (k = n)) as [->|Hne].
    + destruct (fetch_api_data_once (http n)) as [data|e] eqn:E; [done|].
      destruct (retry_if_exception_type e) eqn:Er; [|done].
      exfalso. apply Hlast; [lia|]. by apply (retried_retry e).
    + destruct (Hbefore n) as [e He]; [lia|]. rewrite He. simpl.
      apply IH; [lia| |].
      * intros j Hj. apply Hbefore. lia.
      * intros Hlt. apply Hlast. lia.
Qed.

End Settles.

(** X4: [fetch_api_data] returns or raises what the first attempt
    that did not raise a [RequestException] returned or raised, and what
    the fifth attempt did when the first four raised one. *)
Theorem fetch_api_data_first_settled (http : nat → Upstream.attempt) k :
  (1 ≤ k ≤ 5)%nat →
  (∀ j, (1 ≤ j < k)%nat → retried (http j)) →
  ((k < 5)%nat → ¬ retried (http k)) →
  Upstream.fetch_api_data http = (Upstream.fetch_api_data_once (http k), k).
Proof.
  intros Hk Hbefore Hlast. apply retrying_settles.
  - unfold Upstream.max_attempt_number. simpl. lia.
  - done.
  - intros Hlt. apply Hlast. unfold Upstream.max_attempt_number in Hlt.
    simpl in Hlt. lia.
Qed.

Lemma fetch_api_data_first_settled_witness :
  Upstream.fetch_api_data Examples.http_404_then_200
  = (Upstream.fetch_api_data_once (Examples.http_404_then_200 2), 2%nat).
Proof.
  apply (fetch_api_data_first_settled Examples.http_404_then_200 2).
  - lia.
  - intros j Hj. assert (j = 1%nat) as -> by lia.
    exists (HTTPError 404). reflexivity.
  - intros _ [e He]. discriminate He.
Defined.

Section Request.

Variable lower : string → string.
Variable strptime : string → option datetime.
Variable cfg : config.
Variable today : Z.
Variable api : request → nat → Upstream.attempt.

(** X5: a county whose five attempts all raise a [RequestException]
    (a connection error, a timeout, a 4xx or 5xx status) is logged at
    ERROR with the exception of the fifth attempt, as an HTTP error when
    that is an [HTTPError], and nothing is written for it. *)
Theorem five_failures_are_logged weather county latest w :
  has_required_fields county →
  get_latest_date_for_county weather county = Ok latest →
  fetch_window cfg today latest = Ok (Some w) →
  (∀ n, (1 ≤ n ≤ 5)%nat → retried (api (request_for cfg county w) n)) →
  ∃ e,
    Upstream.fetch_api_data_once (api (request_for cfg county w) 5)
    = Raise (RequestException e)
    ∧ fetch_and_store_data lower strptime cfg today api weather county
      = Outcome (log_exception (RequestException e)) weather
                (Some (request_for cfg county w, 5%nat))
    ∧ levelname (log_exception (RequestException e)) = ERROR
    ∧ (∀ status, e = HTTPError status →
         log_exception (RequestException e) = HTTPErrorOccurred e)
    ∧ ((∀ status, e ≠ HTTPError status) →
         log_exception (RequestException e)
         = UnexpectedError (RequestException e)).
Proof.
  intros Hreq Hl Hw Hfail.
  destruct (Hfail 5%nat) as [e He]; [lia|]. exists e. split; [done|].
  assert (Upstream.fetch_api_data (api (request_for cfg county w))
          = (Raise (RequestException e), 5%nat)) as Hf.
  { rewrite <- He. apply retrying_settles.
    - unfold Upstream.max_attempt_number. simpl. lia.
    - intros j Hj. apply Hfail. lia.
    - unfold Upstream.max_attempt_number. simpl. lia. }
  rewrite (window_fetched _ _ _ _ _ _ _ _ _ Hreq Hl Hw). simpl.
  rewrite Hf. simpl. split; [done|]. split; [by destruct e|]. split.
  - by intros status ->.
  - intros Hne. destruct e; try done. by destruct (Hne status).
Qed.

Lemma bind_Ok {A B} (m : result A) (k : A → result B) y :
  m ≫= k = Ok y → ∃ x, m = Ok x ∧ k x = Ok y.
Proof. destruct m as [x|e]; [eauto|done]. Qed.

Lemma date_sub_Ok d n r : date_sub d n = Ok r → r = d - n.
Proof. unfold date_sub. destruct (_ && _); [|done]. by intros [= <-]. Qed.

(** The window, when there is one, starts no more than [5 * 365] days
    back and ends yesterday. *)
Lemma fetch_window_bounds latest_date_in_db w :
  fetch_window cfg today latest_date_in_db = Ok (Some w) →
  today - five_years ≤ w.1 ≤ w.2 ∧ w.2 = today - 1.
Proof.
  unfold fetch_window. intros H.
  apply bind_Ok in H as (start & Hs & H).
  apply bind_Ok in H as (end_ & He & H).
  apply date_sub_Ok in He as ->.
  destruct (start >? today - 1) eqn:E; [done|]. injection H as <-. simpl.
  rewrite Z.gtb_ltb in E. apply Z.ltb_ge in E.
  split; [|done]. split; [|done].
  destruct (truthy latest_date_in_db).
  - apply bind_Ok in Hs as (days & _ & Hs).
    destruct latest_date_in_db as [| | | |latest|]; try done.
    apply bind_Ok in Hs as (shifted & _ & Hs).
    apply bind_Ok in Hs as (five_years_ago & ->%date_sub_Ok & Hs).
    injection Hs as <-. lia.
  - apply date_sub_Ok in Hs as ->. lia.
Qed.

(** X6: whatever is stored and configured, a request that is sent is
    for the county's coordinates and the configured parameters, for a
    window that starts no more than 1825 days before today, is not
    empty and ends yesterday; it is sent for a county with all its
    required fields, and between one and five times. *)
Theorem request_within_bounds weather county rq attempts :
  sent (fetch_and_store_data lower strptime cfg today api weather county)
  = Some (rq, attempts) →
  has_required_fields county
  ∧ rq_parameters rq = parameters cfg
  ∧ rq_latitude rq = get county "latitude"
  ∧ rq_longitude rq = get county "longitude"
  ∧ today - 1825 ≤ rq_start rq ≤ rq_end rq
  ∧ rq_end rq = today - 1
  ∧ (1 ≤ attempts ≤ 5)%nat.
Proof.
  unfold fetch_and_store_data, has_required_fields.
  destruct (forallb _ required_fields); [|done]. simpl.
  destruct (get_latest_date_for_county weather county) as [latest|e];
    [|done]. simpl.
  destruct (fetch_window cfg today latest) as [[[s e]|]|x] eqn:Hw; try done.
  apply fetch_window_bounds in Hw. simpl in Hw.
  destruct (Upstream.fetch_api_data _) as [r n] eqn:Hf.
  apply retrying_spec in Hf as (Hn & _).
  unfold Upstream.max_attempt_number in Hn. simpl in Hn.
  assert (Some (Request (parameters cfg) (get county "latitude")
                  (get county "longitude") s e, n) = Some (rq, attempts) →
          true = true
          ∧ rq_parameters rq = parameters cfg
          ∧ rq_latitude rq = get county "latitude"
          ∧ rq_longitude rq = get county "longitude"
          ∧ today - 1825 ≤ rq_start rq ≤ rq_end rq
          ∧ rq_end rq = today - 1
          ∧ (1 ≤ attempts ≤ 5)%nat) as Hgoal.
  { intros [= <- <-]. simpl. unfold five_years in Hw.
    repeat split; try done; lia. }
  destruct r as [data|x]; [|exact Hgoal].
  by destruct (reconcile _ _ _ _ _ _).
Qed.

(** X7: the five-year floor does not cover an overflow: when
    [re_fetch_days] is beyond what [timedelta] takes, or takes the
    latest stored date out of the range of dates, the subtraction
    raises [OverflowError] before the floor is applied; the county is
    logged with an unexpected error and not fetched. *)
Theorem re_fetch_overflow_blocks_the_county weather county latest :
  has_required_fields county →
  get_latest_date_for_county weather county = Ok (VDate latest) →
  ¬ (-999999999 ≤ re_fetch_days cfg ≤ 999999999
     ∧ MINORD ≤ dt_day latest - re_fetch_days cfg ≤ MAXORD) →
  fetch_and_store_data lower strptime cfg today api weather county
  = Outcome (UnexpectedError OverflowError) weather None.
Proof.
  intros Hreq Hl Hout. unfold fetch_and_store_data. rewrite Hreq, Hl. simpl.
  assert (fetch_window cfg today (VDate latest) = Raise OverflowError) as ->;
    [|done].
  unfold fetch_window, timedelta_days, datetime_sub, date_sub. simpl.
  destruct ((-999999999 <=? re_fetch_days cfg)
            && (re_fetch_days cfg <=? 999999999)) eqn:Hr; [|done]. simpl.
  destruct ((MINORD <=? dt_day latest - re_fetch_days cfg)
            && (dt_day latest - re_fetch_days cfg <=? MAXORD)) eqn:HL;
    [|done].
  exfalso. apply Hout.
  apply andb_true_iff in Hr as [?%Z.leb_le ?%Z.leb_le].
  apply andb_true_iff in HL as [?%Z.leb_le ?%Z.leb_le]. lia.
Qed.

(** X8: a latest stored [date] that is not a datetime: a falsy one
    (None, 0, an empty string) counts as no data, and the county is
    fetched from 1825 days back; a truthy one (a string, a number) makes
    the subtraction raise [TypeError], and the county is logged with an
    unexpected error and not fetched. *)
Theorem latest_date_of_another_type weather county latest_date_in_db :
  has_required_fields county →
  get_latest_date_for_county weather county = Ok latest_date_in_db →
  (∀ latest, latest_date_in_db ≠ VDate latest) →
  (truthy latest_date_in_db = false →
   today_in_range today →
   ∃ attempts,
     sent (fetch_and_store_data lower strptime cfg today api weather county)
     = Some (request_for cfg county (today - 1825, today - 1), attempts))
  ∧ (truthy latest_date_in_db = true →
     -999999999 ≤ re_fetch_days cfg ≤ 999999999 →
     fetch_and_store_data lower strptime cfg today api weather county
     = Outcome (UnexpectedError TypeError) weather None).
Proof.
  intros Hreq Hl Hother. split.
  - intros Hfalsy Ht. eapply window_sent; [done..|].
    by apply fetch_window_no_latest.
  - intros Htruthy Hr. unfold fetch_and_store_data. rewrite Hreq, Hl. simpl.
    assert (fetch_window cfg today latest_date_in_db = Raise TypeError) as ->;
      [|done].
    unfold fetch_window. rewrite Htruthy, (timedelta_days_ok _ Hr). simpl.
    destruct latest_date_in_db as [| | | |latest|]; try done.
    by destruct (Hother latest).
Qed.

End Request.

Lemma five_failures_are_logged_witness :
  let rq := request_for (Examples.cfg 7) Examples.autauga
              (Examples.today - 1825, Examples.today - 1) in
  ∃ e,
    Upstream.fetch_api_data_once (Samples.refuses 503 rq 5)
    = Raise (RequestException e)
    ∧ fetch_and_store_data Instances.lower Instances.strptime (Examples.cfg 7)
        Examples.today (Samples.refuses 503) [] Examples.autauga
      = Outcome (log_exception (RequestException e)) [] (Some (rq, 5%nat))
    ∧ levelname (log_exception (RequestException e)) = ERROR
    ∧ (∀ status, e = HTTPError status →
         log_exception (RequestException e) = HTTPErrorOccurred e)
    ∧ ((∀ status, e ≠ HTTPError status) →
         log_exception (RequestException e)
         = UnexpectedError (RequestException e)).
Proof.
  apply (five_failures_are_logged Instances.lower Instances.strptime
           (Examples.cfg 7) Examples.today (Samples.refuses 503)
           [] Examples.autauga VNone
           (Examples.today - 1825, Examples.today - 1)).
  - reflexivity.
  - reflexivity.
  - reflexivity.
  - intros n _. exists (HTTPError 503). reflexivity.
Defined.

Lemma request_within_bounds_witness :
  let rq := request_for (Examples.cfg 7) Examples.autauga
              (Examples.today - 11, Examples.today - 1) in
  has_required_fields Examples.autauga
  ∧ rq_parameters rq = parameters (Examples.cfg 7)
  ∧ rq_latitude rq = get Examples.autauga "latitude"
  ∧ rq_longitude rq = get Examples.autauga "longitude"
  ∧ Examples.today - 1825 ≤ rq_start rq ≤ rq_end rq
  ∧ rq_end rq = Examples.today - 1
  ∧ (1 ≤ 1 ≤ 5)%nat.
Proof.
  apply (request_within_bounds Instances.lower Instances.strptime
           (Examples.cfg 7) Examples.today (Examples.answers Examples.no_data)
           [Examples.stored (Examples.today - 4)] Examples.autauga).
  reflexivity.
Defined.

Lemma re_fetch_overflow_blocks_the_county_witness :
  fetch_and_store_data Instances.lower Instances.strptime
    (Examples.cfg 800000) Examples.today (Examples.answers Examples.no_data)
    [Examples.stored (Examples.today - 1)] Examples.autauga
  = Outcome (UnexpectedError OverflowError)
      [Examples.stored (Examples.today - 1)] None.
Proof.
  apply (re_fetch_overflow_blocks_the_county Instances.lower Instances.strptime
           (Examples.cfg 800000) Examples.today
           (Examples.answers Examples.no_data)
           [Examples.stored (Examples.today - 1)] Examples.autauga
           (DateTime (Examples.today - 1) 0)).
  - reflexivity.
  - reflexivity.
  - unfold MINORD, MAXORD, Examples.today. simpl. lia.
Defined.

Lemma latest_date_of_another_type_witness :
  (truthy (VStr "2024-06-14") = false →
   today_in_range Examples.today →
   ∃ attempts,
     sent (Examples.fetcher 7 Examples.no_data [Samples.string_dated]
             Examples.autauga)
     = Some (request_for (Examples.cfg 7) Examples.autauga
               (Examples.today - 1825, Examples.today - 1), attempts))
  ∧ (truthy (VStr "2024-06-14") = true →
     -999999999 ≤ re_fetch_days (Examples.cfg 7) ≤ 999999999 →
     Examples.fetcher 7 Examples.no_data [Samples.string_dated] Examples.autauga
     = Outcome (UnexpectedError TypeError) [Samples.string_dated] None).
Proof.
  apply (latest_date_of_another_type Instances.lower Instances.strptime
           (Examples.cfg 7) Examples.today (Examples.answers Examples.no_data)
           [Samples.string_dated] Examples.autauga (VStr "2024-06-14")).
  - reflexivity.
  - reflexivity.
  - intros latest. discriminate.
Defined.

(** ** What the writes leave alone *)

Section Keeps.

Lemma keeps_documents_refl c : keeps_documents c c.
Proof. split; [done|]. eauto. Qed.

Lemma keeps_documents_trans c1 c2 c3 :
  keeps_documents c1 c2 → keeps_documents c2 c3 → keeps_documents c1 c3.
Proof.
  intros [Hl1 H1] [Hl2 H2]. split; [lia|].
  intros i d Hi. destruct (H1 i d Hi) as (d' & Hi' & Hid).
  destruct (H2 i d' Hi') as (d'' & Hi'' & Hid'). exists d''.
  split; [done|]. congruence.
Qed.

Lemma update_one_keeps_documents query fields c c' :
  update_one query fields c = Ok c' → keeps_documents c c'.
Proof.
  unfold update_one.
  destruct (list_find _ c) as [[i d]|] eqn:Hfind.
  - apply list_find_Some in Hfind as (Hi & _ & _).
    assert ((fields ∪ d) !! "_id" = d !! "_id" →
            keeps_documents c (<[i := fields ∪ d]> c)) as Hkeep.
    { intros Hid. split; [by rewrite length_insert|].
      intros j x Hj. destruct (decide (j = i)) as [->|Hne].
      - exists (fields ∪ d). split.
        + apply list_lookup_insert_eq. by eapply lookup_lt_Some.
        + congruence.
      - exists x. by rewrite list_lookup_insert_ne. }
    destruct (fields !! "_id") as [v|] eqn:Hv.
    + case_bool_decide as Hd; [|done]. intros [= <-]. apply Hkeep.
      by rewrite (lookup_union_Some_l _ _ _ _ Hv).
    + intros [= <-]. apply Hkeep. by apply lookup_union_r.
  - assert (∀ x : document, keeps_documents c (c ++ [x])) as Hkeep.
    { intros x. split; [rewrite length_app; lia|].
      intros j y Hj. exists y. split; [|done]. by apply lookup_app_l_Some. }
    destruct ((fields ∪ query) !! "_id") as [v|].
    + case_bool_decide; [done|]. intros [= <-]. apply Hkeep.
    + intros [= <-]. apply Hkeep.
Qed.

Variable lower : string → string.
Variable strptime : string → option datetime.
Variable cfg : config.

Lemma store_dates_keeps_documents county parameters_data dates : ∀ weather,
  keeps_documents weather
    (store_dates lower strptime cfg county parameters_data dates weather).1.
Proof.
  induction dates as [|date_str dates IH]; intros weather; simpl.
  - apply keeps_documents_refl.
  - destruct (strptime date_str) as [date_dt|]; [|apply keeps_documents_refl].
    destruct (update_one _ _ weather) as [weather'|e] eqn:Hup;
      [|apply keeps_documents_refl].
    eapply keeps_documents_trans; [|apply IH].
    by eapply update_one_keeps_documents.
Qed.

Lemma reconcile_keeps_documents county data weather :
  keeps_documents weather (reconcile lower strptime cfg county data weather).1.
Proof.
  unfold reconcile.
  destruct (Upstream.properties data) as [[[[|[code first] rest]|]]|];
    try apply keeps_documents_refl.
  pose proof (store_dates_keeps_documents county ((code, first) :: rest)
                first.*1 weather) as H.
  simpl. by destruct (store_dates _ _ _ _ _ _ _).
Qed.

Variable today : Z.
Variable api : request → nat → Upstream.attempt.

(** The collection after a call is the one before it, or the one a
    reconcile made of it. *)
Lemma weather_after_reconcile weather county :
  let after :=
    weather_after
      (fetch_and_store_data lower strptime cfg today api weather county) in
  after = weather
  ∨ ∃ data, after = (reconcile lower strptime cfg county data weather).1.
Proof.
  intros after. subst after. unfold fetch_and_store_data.
  destruct (negb _); [by left|].
  destruct (_ ≫= _) as [[[s e]|]|x]; try by left.
  destruct (Upstream.fetch_api_data _) as [[data|x] n]; [|by left].
  right. exists data. by destruct (reconcile _ _ _ _ _ _).
Qed.

(** X9: a call never removes or moves a document and never changes
    an [_id]: every document of the collection is at its place
    afterwards, with the [_id] it had, whatever the county, the
    configuration and the answers of the API. *)
Theorem fetch_and_store_data_keeps_documents weather county :
  let after :=
    weather_after
      (fetch_and_store_data lower strptime cfg today api weather county) in
  (length weather ≤ length after)%nat
  ∧ ∀ i d, weather !! i = Some d →
           ∃ d' : document, after !! i = Some d' ∧ d' !! "_id" = d !! "_id".
Proof.
  destruct (weather_after_reconcile weather county) as [->|[data ->]].
  - apply keeps_documents_refl.
  - apply reconcile_keeps_documents.
Qed.

Lemma reconcile_other_counties weather county data (d : document) :
  (∀ p, p ∈ parameters cfg → lower p ∉ reserved) →
  get d "fips_code" ≠ get county "fips_code" →
  d ∈ (reconcile lower strptime cfg county data weather).1 ↔ d ∈ weather.
Proof.
  intros Hres Hother.
  destruct (Upstream.properties data) as [[[[|[code first] rest]|]]|] eqn:E;
    try (unfold reconcile; rewrite E; simpl; done).
  rewrite (reconcile_parameters _ _ _ _ _ _ _ _ _ Hres E). simpl.
  apply (upsert_all_other_keys lower cfg county _ Hres).
  intros call _ [= Hf _]. done.
Qed.

(** X10: a call leaves the documents of the other counties as they
    are: a document whose [fips_code] is not the county's is in the
    collection afterwards exactly if it was before.  No requested
    parameter is to lower-case to [fips_code], [date] or [_id]. *)
Theorem other_counties_untouched weather county (d : document) :
  (∀ p, p ∈ parameters cfg → lower p ∉ reserved) →
  get d "fips_code" ≠ get county "fips_code" →
  d ∈ weather_after
        (fetch_and_store_data lower strptime cfg today api weather county)
  ↔ d ∈ weather.
Proof.
  intros Hres Hother.
  destruct (weather_after_reconcile weather county) as [->|[data ->]]; [done|].
  by apply reconcile_other_counties.
Qed.

(** X11: a date key that does not parse stops the loop where it
    stands: the dates before it are handled as without it, the key
    itself raises [ValueError] unless a write before it has raised, and
    the dates after it are not looked at. *)
Theorem bad_date_stops_the_loop county parameters_data before bad after
    weather :
  strptime bad = None →
  store_dates lower strptime cfg county parameters_data
    (before ++ bad :: after) weather
  = let r := store_dates lower strptime cfg county parameters_data
               before weather in
    (r.1, match r.2 with
          | Ok _ => Raise ValueError
          | Raise e => Raise e
          end).
Proof.
  intros Hbad. revert weather.
  induction before as [|date_str before IH]; intros weather; simpl.
  - by rewrite Hbad.
  - destruct (strptime date_str) as [date_dt|]; [|done].
    destruct (update_one _ _ weather) as [weather'|e]; [|done].
    apply IH.
Qed.

(** X12: every record has the same fields, whatever the date and the
    response: the six metadata fields and one field per lower-cased
    parameter code; a metadata field that is no lower-cased code holds
    the county's value (the parsed date for [date]). *)
Theorem record_fields county parameters_data date_str date_dt k :
  let record :=
    make_record lower cfg county parameters_data date_str date_dt in
  (is_Some (record !! k) ↔ k ∈ metadata ∨ k ∈ lower <$> parameters cfg)
  ∧ (k ∉ lower <$> parameters cfg →
     record !! k
     = base_record (get county "county_name") (get county "state_name")
         (get county "fips_code") (get county "latitude")
         (get county "longitude") date_dt !! k).
Proof.
  unfold make_record. rewrite add_parameters_set_each. split.
  - rewrite set_each_is_Some, base_record_is_Some. tauto.
  - intros Hk. by apply set_each_other.
Qed.

End Keeps.

Lemma other_counties_untouched_witness :
  Examples.stored_elsewhere (Examples.today - 1)
  ∈ weather_after
      (Examples.fetcher 7 (Examples.body_of Examples.two_days)
         [Examples.stored_elsewhere (Examples.today - 1)] Examples.autauga)
  ↔ Examples.stored_elsewhere (Examples.today - 1)
    ∈ [Examples.stored_elsewhere (Examples.today - 1)].
Proof.
  apply (other_counties_untouched Instances.lower Instances.strptime
           (Examples.cfg 7) Examples.today
           (Examples.answers (Examples.body_of Examples.two_days))
           [Examples.stored_elsewhere (Examples.today - 1)] Examples.autauga).
  - for_each_by_decision.
  - vm_compute. discriminate.
Defined.

Lemma bad_date_stops_the_loop_witness :
  store_dates Instances.lower Instances.strptime (Examples.cfg 7)
    Examples.autauga Samples.bad_key
    (["20240613"] ++ "2024-06-14" :: ["20240615"]) []
  = let r := store_dates Instances.lower Instances.strptime (Examples.cfg 7)
               Examples.autauga Samples.bad_key ["20240613"] [] in
    (r.1, match r.2 with
          | Ok _ => Raise ValueError
          | Raise e => Raise e
          end).
Proof.
  apply (bad_date_stops_the_loop Instances.lower Instances.strptime
           (Examples.cfg 7) Examples.autauga Samples.bad_key
           ["20240613"] "2024-06-14" ["20240615"] []).
  reflexivity.
Defined.

(** The run of that table: the record of 13 June is stored, the
    county is logged with the [ValueError]. *)
Example bad_key_run :
  let o := Examples.fetcher 7 (Examples.body_of Samples.bad_key) []
             Examples.autauga in
  logged o = UnexpectedError ValueError
  ∧ (λ d : document, d !! "date") <$> weather_after o
    = [Some (VDate (Instances.midnight 2024 6 13))].
Proof. by_evaluation. Qed.

(** ** What is logged when the store changes *)

Section Logged.

Variable lower : string → string.
Variable strptime : string → option datetime.
Variable cfg : config.

Lemma update_one_raises query fields c e :
  update_one query fields c = Raise e → not_of_requests e.
Proof.
  unfold update_one.
  destruct (list_find _ c) as [[i d]|].
  - destruct (fields !! "_id"); [|done].
    case_bool_decide; [done|]. by intros [= <-] r.
  - destruct ((fields ∪ query) !! "_id"); [|done].
    case_bool_decide; [|done]. by intros [= <-] r.
Qed.

Lemma store_dates_raises county parameters_data dates : ∀ weather e,
  (store_dates lower strptime cfg county parameters_data dates weather).2
  = Raise e → not_of_requests e.
Proof.
  induction dates as [|date_str dates IH]; intros weather e; simpl; [done|].
  destruct (strptime date_str) as [date_dt|].
  - destruct (update_one _ _ weather) as [weather'|e'] eqn:Hup.
    + apply IH.
    + intros [= <-]. by eapply update_one_raises.
  - by intros [= <-] r.
Qed.

(** What a reconcile that changed the collection reports. *)
Lemma reconcile_reports county data weather :
  let r := reconcile lower strptime cfg county data weather in
  r.1 ≠ weather →
  r.2 = Ok Updated ∨ ∃ e, r.2 = Raise e ∧ not_of_requests e.
Proof.
  unfold reconcile.
  destruct (Upstream.properties data) as [[[[|[code first] rest]|]]|];
    simpl; try done.
  pose proof (store_dates_raises county ((code, first) :: rest) first.*1
                weather) as H.
  destruct (store_dates _ _ _ _ _ _ _) as [weather' [[]|e]]; simpl; intros _.
  - by left.
  - right. exists e. split; [done|]. by apply H.
Qed.

Lemma log_exception_not_of_requests e :
  not_of_requests e → log_exception e = UnexpectedError e.
Proof.
  intros He. destruct e as [r| | | | | | |]; try done.
  by destruct (He r).
Qed.

Variable today : Z.
Variable api : request → nat → Upstream.attempt.

(** X13: the store changes only in a call that sent a request, and
    such a call logs either the update or, through the generic
    [except] clause, an exception that is not one of [requests]: a
    call logged with missing data, no new data, no data available, an
    HTTP error or another request exception has written nothing. *)
Theorem store_changes_are_logged weather county :
  let o := fetch_and_store_data lower strptime cfg today api weather county in
  weather_after o ≠ weather →
  is_Some (sent o)
  ∧ (logged o = Updated
     ∨ ∃ e, logged o = UnexpectedError e ∧ not_of_requests e).
Proof.
  intros o. subst o. unfold fetch_and_store_data.
  destruct (negb _); [done|].
  destruct (_ ≫= _) as [[[s1 s2]|]|x]; try done.
  destruct (Upstream.fetch_api_data _) as [[data|x] n]; [|done].
  pose proof (reconcile_reports county data weather) as H.
  destruct (reconcile _ _ _ _ _ _) as [weather' l]. simpl in *.
  intros Hne. split; [by eexists|].
  destruct (H Hne) as [->|(e & -> & He)]; [by left|].
  right. exists e. split; [|done]. by apply log_exception_not_of_requests.
Qed.

(** ** The batch *)

Local Abbreviation fetch_and_store_data :=
  (fetch_and_store_data lower strptime cfg today api).
Local Abbreviation process := (process lower strptime cfg today api).
Local Abbreviation run := (run lower strptime cfg today api).

Lemma final_weather_cons weather o outcomes :
  final_weather weather (o :: outcomes)
  = final_weather (weather_after o) outcomes.
Proof.
  unfold final_weather. rewrite fmap_cons, last_cons.
  by destruct (last _).
Qed.

(** A relation between collections that every call of a batch
    respects holds between its first and its last collection. *)
Lemma process_respects (R : collection → collection → Prop) counties :
  (∀ w, R w w) →
  (∀ a b c, R a b → R b c → R a c) →
  (∀ w county, county ∈ counties →
               R w (weather_after (fetch_and_store_data w county))) →
  ∀ weather, R weather (final_weather weather (process counties weather)).
Proof.
  intros Hrefl Htrans.
  induction counties as [|county counties IH]; intros Hstep weather; simpl.
  - apply Hrefl.
  - rewrite final_weather_cons. eapply Htrans.
    + apply Hstep, list_elem_of_here.
    + apply IH. intros w c Hc. by apply Hstep, list_elem_of_further.
Qed.

(** X14: a run never removes or moves a document and never changes
    an [_id], whatever the counties, the configuration and the answers
    of the API: every document of the collection is at its place in
    the collection the run leaves, with the [_id] it had. *)
Theorem run_keeps_documents county_collection weather :
  let after := final_weather weather (run county_collection weather) in
  (length weather ≤ length after)%nat
  ∧ ∀ i d, weather !! i = Some d →
           ∃ d' : document, after !! i = Some d' ∧ d' !! "_id" = d !! "_id".
Proof.
  apply (process_respects keeps_documents).
  - apply keeps_documents_refl.
  - apply keeps_documents_trans.
  - intros w county _.
    destruct (weather_after_reconcile lower strptime cfg today api w county)
      as [->|[data ->]].
    + apply keeps_documents_refl.
    + apply reconcile_keeps_documents.
Qed.

(** The counties of a run in test mode carry a [fips_code] of the
    list, where a county without the field counts for [None]. *)
Lemma test_counties_selected county_collection county :
  test_mode cfg = true →
  county ∈ counties_to_process cfg county_collection →
  get county "fips_code" ∈ test_counties cfg.
Proof.
  unfold counties_to_process, find. intros ->.
  rewrite list_elem_of_In, filter_In, existsb_exists.
  intros (_ & v & Hv & Hm). apply list_elem_of_In in Hv.
  unfold field_matches, get in *.
  destruct (county !! "fips_code"); simpl;
    apply bool_decide_eq_true in Hm; by subst.
Qed.

(** X15: a run in test mode leaves the documents of the counties
    it was not given as they are: a document whose [fips_code] is not
    in [test_counties] is in the collection the run leaves exactly if
    it was there before.  No requested parameter is to lower-case to
    [fips_code], [date] or [_id]. *)
Theorem test_run_touches_test_counties_only county_collection weather
    (d : document) :
  test_mode cfg = true →
  (∀ p, p ∈ parameters cfg → lower p ∉ reserved) →
  get d "fips_code" ∉ test_counties cfg →
  d ∈ final_weather weather (run county_collection weather) ↔ d ∈ weather.
Proof.
  intros Htest Hres Hd.
  apply (process_respects (λ a b, d ∈ b ↔ d ∈ a)).
  - done.
  - intros a b c Hab Hbc. by rewrite Hbc.
  - intros w county Hc.
    assert (get d "fips_code" ≠ get county "fips_code") as Hne.
    { intros Heq. apply Hd. rewrite Heq.
      by eapply test_counties_selected. }
    destruct (weather_after_reconcile lower strptime cfg today api w county)
      as [->|[data ->]]; [done|].
    by apply reconcile_other_counties.
Qed.

End Logged.

Lemma store_changes_are_logged_witness :
  let o := Examples.fetcher 7 (Examples.body_of Samples.bad_key) []
             Examples.autauga in
  is_Some (sent o)
  ∧ (logged o = Updated
     ∨ ∃ e, logged o = UnexpectedError e ∧ not_of_requests e).
Proof.
  apply (store_changes_are_logged Instances.lower Instances.strptime
           (Examples.cfg 7) Examples.today
           (Examples.answers (Examples.body_of Samples.bad_key))
           [] Examples.autauga).
  vm_compute. discriminate.
Defined.

Lemma test_run_touches_test_counties_only_witness :
  let weather := [Examples.stored_elsewhere (Examples.today - 1)] in
  let outcomes :=
    run Instances.lower Instances.strptime Samples.test_cfg Examples.today
      (Examples.answers (Examples.body_of Examples.two_days))
      [Examples.macapa; Examples.autauga] weather in
  Examples.stored_elsewhere (Examples.today - 1)
  ∈ final_weather weather outcomes
  ↔ Examples.stored_elsewhere (Examples.today - 1) ∈ weather.
Proof.
  apply (test_run_touches_test_counties_only Instances.lower
           Instances.strptime Samples.test_cfg Examples.today
           (Examples.answers (Examples.body_of Examples.two_days))
           [Examples.macapa; Examples.autauga]
           [Examples.stored_elsewhere (Examples.today - 1)]
           (Examples.stored_elsewhere (Examples.today - 1))).
  - reflexivity.
  - for_each_by_decision.
  - by_decision.
Defined.

(** That run handles Autauga only and stores its two days after the
    record of the other county. *)
Example test_run :
  let weather := [Examples.stored_elsewhere (Examples.today - 1)] in
  let outcomes :=
    run Instances.lower Instances.strptime Samples.test_cfg Examples.today
      (Examples.answers (Examples.body_of Examples.two_days))
      [Examples.macapa; Examples.autauga] weather in
  logged <$> outcomes = [Updated]
  ∧ length (final_weather weather outcomes) = 3%nat.
Proof. by_evaluation. Qed.

(** ** Start-up *)

Section Starts.

Import Startup.

Variable connect : setting → result unit.

Lemma init_Ok getenv config self :
  init getenv connect config = Ok self →
  truthy_setting (resolve_uri getenv config) = true
  ∧ connect (resolve_uri getenv config) = Ok tt
  ∧ semaphore (default (Scalar (int 5)) (config !! "max_workers")) = Ok tt
  ∧ self
    = {| mongodb_uri := resolve_uri getenv config;
         re_fetch_days := default (Scalar (int 7)) (config !! "re_fetch_days");
         test_mode := default (Scalar (VBool false)) (config !! "test_mode");
         test_counties := default (Items []) (config !! "test_counties");
         parameters := default (Items []) (config !! "parameters");
         max_workers := default (Scalar (int 5)) (config !! "max_workers") |}.
Proof.
  unfold init.
  destruct (truthy_setting (resolve_uri getenv config)); [|done]. simpl.
  destruct (connect _) as [[]|]; [|done]. simpl.
  destruct (semaphore _) as [[]|]; [|done]. simpl.
  by intros [= <-].
Qed.

(** X16: a [MONGODB_URI] of the environment comes first: with the
    variable set, the [mongodb_uri] of the file plays no part, also
    when the variable is empty, which is refused with [ValueError]
    whatever the file says; a fetcher that was made holds the
    variable's value. *)
Theorem environment_uri_comes_first s config u :
  init (Some s) connect (<["mongodb_uri" := u]> config)
  = init (Some s) connect config
  ∧ init (Some EmptyString) connect config = Raise ValueError
  ∧ ∀ self, init (Some s) connect config = Ok self →
            mongodb_uri self = Scalar (VStr s).
Proof.
  split; [|split].
  - unfold init, resolve_uri.
    by rewrite !lookup_insert_ne by done.
  - done.
  - intros self H. by destruct (init_Ok _ _ _ H) as (_ & _ & _ & ->).
Qed.

(** X17: a fetcher that was made has a connection and a worker
    count the semaphore accepts: its URI is a non-empty value, the
    client and the index were created with it, and [max_workers] is a
    number that is not negative (or a boolean). *)
Theorem started_fetcher getenv config self :
  init getenv connect config = Ok self →
  truthy_setting (mongodb_uri self) = true
  ∧ connect (mongodb_uri self) = Ok tt
  ∧ ((∃ q, max_workers self = Scalar (VNum q) ∧ (0 ≤ q)%Qc)
     ∨ ∃ b, max_workers self = Scalar (VBool b)).
Proof.
  intros H. destruct (init_Ok _ _ _ H) as (Huri & Hconnect & Hsem & ->).
  simpl. split; [done|]. split; [done|].
  destruct (default (Scalar (int 5)) _) as [[| b | q | | |]|]; try done.
  - right. by exists b.
  - left. exists q. split; [done|]. simpl in Hsem.
    case_bool_decide as Hq; [done|]. by apply Qcnot_lt_le.
Qed.

Variable load : string → result (gmap string setting).

Lemma override_lookup a config k :
  override a config !! k
  = if bool_decide (k = "max_workers") then
      match max_workers_arg a with
      | Some n => Some (Scalar (int n))
      | None => config !! k
      end
    else if bool_decide (k = "re_fetch_days") then
      match re_fetch_days_arg a with
      | Some n => Some (Scalar (int n))
      | None => config !! k
      end
    else if bool_decide (k = "test_mode") then
      if test a then Some (Scalar (VBool true)) else config !! k
    else config !! k.
Proof.
  unfold override.
  destruct (max_workers_arg a), (re_fetch_days_arg a), (test a);
    repeat case_bool_decide; subst;
    rewrite ?lookup_insert_eq, ?lookup_insert_ne by done;
    try done;
    rewrite ?lookup_insert_eq, ?lookup_insert_ne by done; done.
Qed.

(** X18: the command line comes before the file, and the file
    before the defaults: the fetcher [main] makes runs in test mode if
    [--test] is given and else as the file says; it has the
    [--re-fetch-days] and the [--max-workers] of the command line where
    they are given, also when they are 0, and else those of the file;
    test counties and parameters come from the file alone. *)
Theorem command_line_comes_first getenv a config self :
  load (config_path a) = Ok config →
  main load getenv connect a = Ok self →
  test_mode self
  = (if test a then Scalar (VBool true)
     else default (Scalar (VBool false)) (config !! "test_mode"))
  ∧ re_fetch_days self
    = match re_fetch_days_arg a with
      | Some n => Scalar (int n)
      | None => default (Scalar (int 7)) (config !! "re_fetch_days")
      end
  ∧ max_workers self
    = match max_workers_arg a with
      | Some n => Scalar (int n)
      | None => default (Scalar (int 5)) (config !! "max_workers")
      end
  ∧ test_counties self = default (Items []) (config !! "test_counties")
  ∧ parameters self = default (Items []) (config !! "parameters").
Proof.
  unfold main. intros ->. simpl. intros H.
  destruct (init_Ok _ _ _ H) as (_ & _ & _ & ->). simpl.
  rewrite !override_lookup. simpl.
  by destruct (test a), (re_fetch_days_arg a), (max_workers_arg a).
Qed.

(** X19: a negative [--max-workers] makes no fetcher: when the
    file is read, the URI is there and the client is created, [main]
    ends with the [ValueError] of the semaphore. *)
Theorem negative_max_workers_refused getenv a config n :
  max_workers_arg a = Some n →
  n < 0 →
  load (config_path a) = Ok config →
  (∀ self, main load getenv connect a ≠ Ok self)
  ∧ (truthy_setting (resolve_uri getenv config) = true →
     connect (resolve_uri getenv config) = Ok tt →
     main load getenv connect a = Raise ValueError).
Proof.
  intros Hn Hneg Hload.
  assert (semaphore (default (Scalar (int 5))
                       (override a config !! "max_workers"))
          = Raise ValueError) as Hsem.
  { rewrite override_lookup, Hn. simpl.
    rewrite bool_decide_eq_true_2; [done|].
    unfold Qclt, int. cbn [this Q2Qc]. rewrite !Qreduction.Qred_correct.
    unfold QArith_base.Qlt. simpl. lia. }
  assert (resolve_uri getenv (override a config) = resolve_uri getenv config)
    as Huri.
  { unfold resolve_uri. by rewrite override_lookup. }
  unfold main. rewrite Hload. simpl. split.
  - intros self H. destruct (init_Ok _ _ _ H) as (_ & _ & Hs & _).
    by rewrite Hsem in Hs.
  - intros Ht Hc. unfold init. rewrite Huri, Ht, Hc. simpl.
    by rewrite Hsem.
Qed.

End Starts.

Lemma started_fetcher_witness :
  Startup.truthy_setting (Startup.mongodb_uri Samples.started) = true
  ∧ Samples.connects (Startup.mongodb_uri Samples.started) = Ok tt
  ∧ ((∃ q, Startup.max_workers Samples.started
           = Startup.Scalar (VNum q) ∧ (0 ≤ q)%Qc)
     ∨ ∃ b, Startup.max_workers Samples.started
            = Startup.Scalar (VBool b)).
Proof.
  apply (started_fetcher Samples.connects None Samples.file Samples.started).
  reflexivity.
Defined.

Lemma command_line_comes_first_witness :
  Startup.test_mode Samples.started_in_test = Startup.Scalar (VBool true)
  ∧ Startup.re_fetch_days Samples.started_in_test
    = Startup.Scalar (Startup.int 0)
  ∧ Startup.max_workers Samples.started_in_test
    = Startup.Scalar (Startup.int 5)
  ∧ Startup.test_counties Samples.started_in_test = Startup.Items []
  ∧ Startup.parameters Samples.started_in_test
    = Startup.Items [VStr "T2M"].
Proof.
  apply (command_line_comes_first Samples.connects Samples.loads None
           Samples.command_line Samples.file Samples.started_in_test);
    reflexivity.
Defined.

Lemma negative_max_workers_refused_witness :
  let a := Startup.Args "config.yaml" false None (Some (-1)) in
  (∀ self, Startup.main Samples.loads None Samples.connects a ≠ Ok self)
  ∧ (Startup.truthy_setting (Startup.resolve_uri None Samples.file) = true →
     Samples.connects (Startup.resolve_uri None Samples.file) = Ok tt →
     Startup.main Samples.loads None Samples.connects a = Raise ValueError).
Proof.
  apply (negative_max_workers_refused Samples.connects Samples.loads None
           (Startup.Args "config.yaml" false None (Some (-1)))
           Samples.file (-1)).
  - reflexivity.
  - lia.
  - reflexivity.
Defined.
